(** * NBAPredictLab: the tweet rate-limit tracker and posting gate

    A shallow embedding of [src/tweet_counter.py] and
    [src/twitter_rate_limits.py], and the properties of the posting gate
    stated over it.

    Conventions of the embedding.
    - An instant is a [Z]: microseconds since the Unix epoch (the resolution
      of Python's [datetime]).  A duration ([timedelta]) is a [Z] number of
      microseconds too.  [timedelta.total_seconds() / 3600] is a float in the
      source; the embedding keeps the exact duration, and a comparison such
      as [age_hours < 24] is the comparison of the duration with 24 hours.
    - Every operation reads the clock once, through its [now] argument.
    - A character of a string stands for one code point of the Python
      string; [s[:50]] and [len(s)] count those.
    - A datetime with a UTC offset is its instant and its offset, in
      microseconds; the text that [isoformat] prints of it is kept as these
      two, which determine it.
    - A naive local [datetime] is represented by the instant it denotes.
      The local time of the machine has a constant UTC offset, the
      argument [tz] (in seconds) of the operations that convert a
      timestamp to local time.
    - A Python exception is a value of [exn]; code that may raise returns a
      [result]; [try: ... except Exception] is [try_except].
    - A JSON file on disk is a [file]: absent, present but unreadable by
      [json.load], or present with a well-typed content.  The dictionaries
      read from it are records whose fields are [option]s ([None]: the key
      is not there). *)

From Stdlib Require Import ZArith Lia Sorted Permutation.
From stdpp Require Import base option list strings gmap.

Local Open Scope Z_scope.

(** ** Python runtime: exceptions, datetimes, files *)

Module Py.

Inductive exn : Type :=
| KeyError (key : string)
| ValueError
| TypeError
| JSONDecodeError
| OSError.

Inductive result (A : Type) : Type :=
| Ok (a : A)
| Raise (e : exn).
Arguments Ok {A} a.
Arguments Raise {A} e.

#[global] Instance result_ret : MRet result := fun A a => Ok a.
#[global] Instance result_bind : MBind result := fun A B k m =>
  match m with
  | Ok a => k a
  | Raise e => Raise e
  end.

(** [try: body except Exception as e: handler e] *)
Definition try_except {A : Type} (body : result A) (handler : exn -> A) : A :=
  match body with
  | Ok a => a
  | Raise e => handler e
  end.

(** [d[key]] on a dictionary whose field [key] is [field]. *)
Definition getitem {A : Type} (key : string) (field : option A) : result A :=
  match field with
  | Some a => Ok a
  | None => Raise (KeyError key)
  end.

(** [d.get(key, dflt)] *)
Definition get {A : Type} (field : option A) (dflt : A) : A := default dflt field.

Definition us_per_second : Z := 1000000.
Definition seconds (n : Z) : Z := n * us_per_second.
Definition hours (n : Z) : Z := n * 3600 * us_per_second.

Inductive datetime : Type :=
| Naive (t : Z)
| Aware (t : Z) (offset : Z).

(** [a - b]: a [timedelta]; mixing naive and aware datetimes raises. *)
Definition dt_sub (a b : datetime) : result Z :=
  match a, b with
  | Naive x, Naive y | Aware x _, Aware y _ => Ok (x - y)
  | _, _ => Raise TypeError
  end.

(** [a >= b] *)
Definition dt_ge (a b : datetime) : result bool :=
  match a, b with
  | Naive x, Naive y | Aware x _, Aware y _ => Ok (y <=? x)
  | _, _ => Raise TypeError
  end.

(** [a < b] *)
Definition dt_lt (a b : datetime) : result bool :=
  match a, b with
  | Naive x, Naive y | Aware x _, Aware y _ => Ok (x <? y)
  | _, _ => Raise TypeError
  end.

(** A string handed to [datetime.fromisoformat], by what the parser makes of
    it: not ISO-8601 (or not a string at all), a date without UTC offset, a
    date with one.  [IsoAware t offset] is the text of the instant [t]
    written with the UTC offset [offset]: the local date and time
    [t + offset] followed by the offset, [+00:00] for 0. *)
Inductive iso_string : Type :=
| IsoMalformed
| IsoNaive (t : Z)
| IsoAware (t : Z) (offset : Z).

#[global] Instance iso_string_eq_dec : EqDecision iso_string.
Proof. solve_decision. Defined.

(** The UTC offsets a [timezone] takes: strictly between -24 and 24 hours.
    A text with another offset is not ISO-8601 for the parser. *)
Definition valid_offset (offset : Z) : bool :=
  (- hours 24 <? offset) && (offset <? hours 24).
Arguments valid_offset : simpl never.

Definition fromisoformat (s : iso_string) : result datetime :=
  match s with
  | IsoMalformed => Raise ValueError
  | IsoNaive t => Ok (Naive t)
  | IsoAware t offset =>
      if valid_offset offset then Ok (Aware t offset) else Raise ValueError
  end.

(** The epoch seconds of 0001-01-01T00:00:00 and 9999-12-31T23:59:59 in
    UTC, the range of [datetime]. *)
Definition MIN_TIMESTAMP : Z := -62135596800.
Definition MAX_TIMESTAMP : Z := 253402300799.

Definition representable (ts : Z) : bool :=
  (MIN_TIMESTAMP <=? ts) && (ts <=? MAX_TIMESTAMP).

(** The UTC offset of [timezone.utc], and of a machine set to UTC. *)
Definition UTC : Z := 0.

(** The timestamps that [datetime.fromtimestamp(ts)] turns into a local
    datetime on a machine [tz] seconds ahead of UTC: the local time is
    within the range of [datetime], and so is the local time one day
    earlier, which the conversion looks at to tell a repeated hour. *)
Definition local_representable (tz ts : Z) : bool :=
  (MIN_TIMESTAMP + 86400 <=? ts + tz) && (ts + tz <=? MAX_TIMESTAMP).

(** [datetime.fromtimestamp(ts)]; outside that range it raises
    [ValueError] ("year 0 is out of range"; for a number beyond the time_t
    of the platform it is [OverflowError], which is not told apart
    here). *)
Definition fromtimestamp (tz ts : Z) : result datetime :=
  if local_representable tz ts then Ok (Naive (seconds ts)) else Raise ValueError.

(** [datetime.fromtimestamp(ts, tz=timezone.utc)] *)
Definition fromtimestamp_utc (ts : Z) : result datetime :=
  if representable ts then Ok (Aware (seconds ts) 0) else Raise ValueError.

Inductive file (A : Type) : Type :=
| NoFile
| Corrupt
| Contents (a : A).
Arguments NoFile {A}.
Arguments Corrupt {A}.
Arguments Contents {A} a.

(** [if F.exists(): with open(F) as f: data = json.load(f)]: [Ok None] when
    the file is not there. *)
Definition load_if_exists {A : Type} (f : file A) : result (option A) :=
  match f with
  | NoFile => Ok None
  | Corrupt => Raise JSONDecodeError
  | Contents a => Ok (Some a)
  end.

(** [with open(F, 'w') as f: json.dump(data, f)] *)
Definition dump {A : Type} (writable : bool) (data : A) : result (file A) :=
  if writable then Ok (Contents data) else Raise OSError.

End Py.
Import Py.

(** ** tweet_counter.py *)

Module TweetCounter.

Definition FREE_TIER_24H_LIMIT : Z := 17.

(** An entry of [data/tweet_history.json]; [rate_limit_info] is the
    dictionary a caller passed to [log_tweet_posted]. *)
Module Entry.
Record t : Type := {
  tweet_id : option string;
  posted_at : option iso_string;
  text_preview : option string;
  rate_limit_info : option (gmap string Z)
}.
End Entry.

(** The content of [data/latest_rate_limit.json]. *)
Module Cache.
Record t : Type := {
  remaining : option Z;
  limit : option Z;
  reset : option Z;
  timestamp : option iso_string
}.
End Cache.

(** An element of [tweets_24h]; [posted_at] holds [posted_at.isoformat()]
    and [age_hours] the age as a duration. *)
Module Tweet.
Record t : Type := {
  id : string;
  posted_at : iso_string;
  text : string;
  age_hours : Z
}.
End Tweet.

(** The dictionary [get_tweet_count_24h] returns; [error] is [None] when the
    key is not set. *)
Module Count.
Record t : Type := {
  count : Z;
  limit : Z;
  remaining : Z;
  tweets : list Tweet.t;
  oldest_tweet_age_hours : option Z;
  source : string;
  api_rate_limit : option Cache.t;
  error : option exn
}.
End Count.

(** The two files of the module, and whether the data directory takes
    writes. *)
Record files : Type := {
  TWEET_LOG_FILE : file (list Entry.t);
  RATE_LIMIT_CACHE_FILE : file Cache.t;
  disk_writable : bool
}.

Definition isoformat (d : datetime) : iso_string :=
  match d with
  | Naive t => IsoNaive t
  | Aware t offset => IsoAware t offset
  end.

(** The length of a day, in microseconds. *)
Definition DAY : Z := hours 24.

(** The place of an ISO string among the strings of one local date and
    time, by what follows them: nothing, then the offsets from [+00:00]
    upwards, then the offsets from [-00:00:00.000001] downwards. *)
Definition offset_rank (s : iso_string) : Z :=
  match s with
  | IsoMalformed | IsoNaive _ => 0
  | IsoAware _ offset => if 0 <=? offset then 1 + offset else 1 + DAY - offset
  end.

(** The local date and time an ISO string shows, in microseconds. *)
Definition local_time (s : iso_string) : Z :=
  match s with
  | IsoMalformed => 0
  | IsoNaive t => t
  | IsoAware t offset => t + offset
  end.

(** The order of the ISO strings the module sorts by, which is the order of
    Python's strings on what [isoformat] prints: the fields of the local
    date and time have a fixed width and come first, the microseconds
    follow when they are not zero ([.] sorts after [+] and [-]), and the
    offset comes last ([+] sorts before [-], and the digits of an offset
    grow with its size).  [iso_key] numbers the strings in that order: by
    local time, then by [offset_rank], which stays below [2 * DAY + 1] for
    the offsets a [datetime] can have (less than 24 hours). *)
Definition iso_key (s : iso_string) : Z :=
  local_time s * (2 * DAY + 1) + offset_rank s.

(** [min(l, key=...)] on a non-empty list [x :: l]: the first least
    element. *)
Fixpoint py_min {A : Type} (key : A -> Z) (x : A) (l : list A) : A :=
  match l with
  | [] => x
  | y :: l' => py_min key (if key y <? key x then y else x) l'
  end.

(** [sorted(l, key=..., reverse=True)]: descending, elements of equal key in
    their original order. *)
Fixpoint insert_reverse {A : Type} (key : A -> Z) (x : A) (l : list A) : list A :=
  match l with
  | [] => [x]
  | y :: l' =>
      if key y <=? key x then x :: y :: l' else y :: insert_reverse key x l'
  end.

Definition sorted_reverse {A : Type} (key : A -> Z) (l : list A) : list A :=
  foldr (insert_reverse key) [] l.

Definition _load_tweet_log (fs : files) : list Entry.t :=
  try_except
    (data ← load_if_exists (TWEET_LOG_FILE fs);
     mret (default [] data))
    (fun _ => []).

Definition _save_tweet_log (tweet_log : list Entry.t) (fs : files) : files :=
  try_except
    (f ← dump (disk_writable fs) tweet_log;
     mret {| TWEET_LOG_FILE := f;
             RATE_LIMIT_CACHE_FILE := RATE_LIMIT_CACHE_FILE fs;
             disk_writable := disk_writable fs |})
    (fun _ => fs).

(** The list comprehension of [_cleanup_old_tweets]. *)
Fixpoint newer_than (cutoff_time : Z) (tweet_log : list Entry.t) : result (list Entry.t) :=
  match tweet_log with
  | [] => mret []
  | tweet :: rest =>
      s ← getitem "posted_at" (Entry.posted_at tweet);
      posted_at ← fromisoformat s;
      keep ← dt_ge posted_at (Aware cutoff_time 0);
      filtered ← newer_than cutoff_time rest;
      mret (if keep : bool then tweet :: filtered else filtered)
  end.

Definition _cleanup_old_tweets (now : Z) (fs : files) : files :=
  try_except
    (let tweet_log := _load_tweet_log fs in
     let cutoff_time := now - hours 48 in
     filtered_log ← newer_than cutoff_time tweet_log;
     if (length filtered_log <? length tweet_log)%nat
     then mret (_save_tweet_log filtered_log fs)
     else mret fs)
    (fun _ => fs).

Definition _save_latest_rate_limit (now : Z) (info : gmap string Z) (fs : files) : files :=
  try_except
    (let cache_data :=
       {| Cache.remaining := info !! "remaining"%string;
          Cache.limit := info !! "limit"%string;
          Cache.reset := info !! "reset"%string;
          Cache.timestamp := Some (IsoAware now 0) |} in
     f ← dump (disk_writable fs) cache_data;
     mret {| TWEET_LOG_FILE := TWEET_LOG_FILE fs;
             RATE_LIMIT_CACHE_FILE := f;
             disk_writable := disk_writable fs |})
    (fun _ => fs).

Definition get_latest_rate_limit (now : Z) (fs : files) : option Cache.t :=
  try_except
    (file_data ← load_if_exists (RATE_LIMIT_CACHE_FILE fs);
     match file_data with
     | None => mret None
     | Some data =>
         if bool_decide (Cache.remaining data = Some 0)
            && bool_decide (default 0 (Cache.reset data) ≠ 0)
         then
           r ← getitem "reset" (Cache.reset data);
           reset_time ← fromtimestamp_utc r;
           still ← dt_lt (Aware now 0) reset_time;
           if still : bool then mret (Some data) else mret None
         else
           ts ← getitem "timestamp" (Cache.timestamp data);
           cached_time ← fromisoformat ts;
           age_seconds ← dt_sub (Aware now 0) cached_time;
           if age_seconds <? seconds 3600 then mret (Some data) else mret None
     end)
    (fun _ => None).

(** [text_preview[:50] if text_preview else ""] *)
Definition preview (text_preview : string) : string :=
  String.substring 0 50 text_preview.

Definition log_tweet_posted (now : Z) (tweet_id text_preview : string)
    (rate_limit_info : option (gmap string Z)) (fs : files) : files :=
  let given :=
    match rate_limit_info with
    | Some info => if bool_decide (info = ∅) then None else Some info
    | None => None
    end in
  let entry :=
    {| Entry.tweet_id := Some tweet_id;
       Entry.posted_at := Some (IsoAware now 0);
       Entry.text_preview := Some (preview text_preview);
       Entry.rate_limit_info := given |} in
  let fs := _save_tweet_log (_load_tweet_log fs ++ [entry]) fs in
  match given with
  | Some info =>
      if bool_decide (is_Some (info !! "remaining"%string))
      then _save_latest_rate_limit now info fs
      else fs
  | None => fs
  end.

(** The loop of [get_tweet_count_24h] that fills [tweets_24h]. *)
Fixpoint tweets_since (now cutoff_time : Z) (tweet_log : list Entry.t) : result (list Tweet.t) :=
  match tweet_log with
  | [] => mret []
  | tweet :: rest =>
      s ← getitem "posted_at" (Entry.posted_at tweet);
      posted_at ← fromisoformat s;
      recent ← dt_ge posted_at (Aware cutoff_time 0);
      if recent : bool then
        tweet_id ← getitem "tweet_id" (Entry.tweet_id tweet);
        age ← dt_sub (Aware now 0) posted_at;
        tweets_24h ← tweets_since now cutoff_time rest;
        mret ({| Tweet.id := tweet_id;
                 Tweet.posted_at := isoformat posted_at;
                 Tweet.text := get (Entry.text_preview tweet) ""%string;
                 Tweet.age_hours := age |} :: tweets_24h)
      else tweets_since now cutoff_time rest
  end.

Definition posted_key (t : Tweet.t) : Z := iso_key (Tweet.posted_at t).

Definition get_tweet_count_24h (now : Z) (fs : files) : Count.t * files :=
  try_except
    (let tweet_log := _load_tweet_log fs in
     let cutoff_time := now - hours 24 in
     tweets_24h ← tweets_since now cutoff_time tweet_log;
     let count := Z.of_nat (length tweets_24h) in
     let remaining := Z.max 0 (FREE_TIER_24H_LIMIT - count) in
     let oldest_tweet_age_hours :=
       match tweets_24h with
       | [] => None
       | t :: l => Some (Tweet.age_hours (py_min posted_key t l))
       end in
     let fs' := _cleanup_old_tweets now fs in
     let api_rate_limit := get_latest_rate_limit now fs' in
     mret ({| Count.count := count;
              Count.limit := FREE_TIER_24H_LIMIT;
              Count.remaining := remaining;
              Count.tweets := sorted_reverse posted_key tweets_24h;
              Count.oldest_tweet_age_hours := oldest_tweet_age_hours;
              Count.source := "local_log";
              Count.api_rate_limit := api_rate_limit;
              Count.error := None |}, fs'))
    (fun e =>
       ({| Count.count := 0;
           Count.limit := FREE_TIER_24H_LIMIT;
           Count.remaining := FREE_TIER_24H_LIMIT;
           Count.tweets := [];
           Count.oldest_tweet_age_hours := None;
           Count.source := "local_log";
           Count.api_rate_limit := None;
           Count.error := Some e |}, fs)).

Definition reset_tweet_count (fs : files) : files := _save_tweet_log [] fs.

End TweetCounter.

(** ** twitter_rate_limits.py *)

Module TwitterRateLimits.

Definition FREE_TIER_24H_LIMIT : Z := 17.

(** One of the dictionaries [app_24h], [user_24h], [window_15min]. *)
Module Scope.
Record t : Type := {
  limit : option Z;
  remaining : option Z;
  reset : option Z
}.
(** [{}] *)
Definition empty : t := {| limit := None; remaining := None; reset := None |}.
End Scope.

(** The content of [data/twitter_rate_limits_cache.json]: the limits written
    from error headers, or the tweet count written by
    [count_tweets_last_24h]. *)
Module Limits.
Record t : Type := {
  app_24h : option Scope.t;
  user_24h : option Scope.t;
  window_15min : option Scope.t;
  timestamp : option iso_string;
  source : option string;
  tweet_count_24h : option Z;
  user_id : option Z
}.
(** [not limits] on a dictionary: it has no key. *)
Definition is_empty (d : t) : bool :=
  match d with
  | {| app_24h := None; user_24h := None; window_15min := None;
       timestamp := None; source := None; tweet_count_24h := None;
       user_id := None |} => true
  | _ => false
  end.
End Limits.

Record files : Type := {
  CACHE_FILE : file Limits.t;
  disk_writable : bool
}.

Definition get_cached_rate_limits (now : Z) (fs : files) : option Limits.t :=
  try_except
    (file_data ← load_if_exists (CACHE_FILE fs);
     match file_data with
     | None => mret None
     | Some data =>
         ts ← getitem "timestamp" (Limits.timestamp data);
         cached_time ← fromisoformat ts;
         age_hours ← dt_sub (Naive now) cached_time;
         if age_hours <? hours 24 then mret (Some data) else mret None
     end)
    (fun _ => None).

Definition _save_cache (data : Limits.t) (fs : files) : files :=
  try_except
    (f ← dump (disk_writable fs) data;
     mret {| CACHE_FILE := f; disk_writable := disk_writable fs |})
    (fun _ => fs).

(** [if cached_data and cached_data.get('source') in [...]] *)
Definition from_429_error (cached_data : Limits.t) : bool :=
  negb (Limits.is_empty cached_data)
  && bool_decide (Limits.source cached_data = Some "error_headers"%string
                  \/ Limits.source cached_data = Some "error_response"%string).

(** The function returns at its first unconditional [return None]; what the
    source has below it (the [rate_limit_status] block under [if False] and
    the [get_me] probe) is never run, and the client is never called. *)
Definition get_24h_rate_limits_from_api (now : Z) (fs : files) : option Limits.t :=
  match get_cached_rate_limits now fs with
  | Some cached_data => if from_429_error cached_data then Some cached_data else None
  | None => None
  end.

(** A header of a 429 response, by what [if h] and [int(h)] make of it. *)
Inductive header : Type :=
| HeaderEmpty
| HeaderInt (n : Z)
| HeaderText.

(** [int(h) if h else dflt], with [h = headers.get(name)] *)
Definition int_or (h : option header) (dflt : Z) : result Z :=
  match h with
  | None | Some HeaderEmpty => Ok dflt
  | Some (HeaderInt n) => Ok n
  | Some HeaderText => Raise ValueError
  end.

Definition scope_from_headers (headers : gmap string header)
    (limit_name remaining_name reset_name : string) (default_limit : Z) : result Scope.t :=
  l ← int_or (headers !! limit_name) default_limit;
  r ← int_or (headers !! remaining_name) 0;
  t ← int_or (headers !! reset_name) 0;
  mret {| Scope.limit := Some l; Scope.remaining := Some r; Scope.reset := Some t |}.

(** The dictionary the [except tweepy.TooManyRequests] handler of
    [get_24h_rate_limits_from_api] builds from the headers of the rejection
    (the handler sits below the unconditional return). *)
Definition limits_from_error_headers (now : Z) (headers : gmap string header) : result Limits.t :=
  app ← scope_from_headers headers "x-app-limit-24hour-limit"
          "x-app-limit-24hour-remaining" "x-app-limit-24hour-reset" FREE_TIER_24H_LIMIT;
  user ← scope_from_headers headers "x-user-limit-24hour-limit"
          "x-user-limit-24hour-remaining" "x-user-limit-24hour-reset" FREE_TIER_24H_LIMIT;
  window ← scope_from_headers headers "x-rate-limit-limit"
          "x-rate-limit-remaining" "x-rate-limit-reset" 300;
  mret {| Limits.app_24h := Some app;
          Limits.user_24h := Some user;
          Limits.window_15min := Some window;
          Limits.timestamp := Some (IsoNaive now);
          Limits.source := Some "error_headers"%string;
          Limits.tweet_count_24h := None;
          Limits.user_id := None |}.

(** The dictionary [count_tweets_last_24h] hands to [_save_cache]. *)
Definition tweet_count_cache (now count user_id : Z) : Limits.t :=
  {| Limits.app_24h := None;
     Limits.user_24h := None;
     Limits.window_15min := None;
     Limits.timestamp := Some (IsoNaive now);
     Limits.source := Some "tweet_count"%string;
     Limits.tweet_count_24h := Some count;
     Limits.user_id := Some user_id |}.

(** The texts the display and the gate compose, by their parts: a reset
    time printed by [strftime] is the datetime it prints, and a number of
    hours printed with [:.1f] is the duration it prints. *)
Inductive status : Type := EXHAUSTED | OK.

Inductive reset_str : Type :=
| ResetAt (reset_dt : Z)
| ResettingNow
| ResetUnknown.

Module ScopeDisplay.
Record t : Type := {
  status : TwitterRateLimits.status;
  limit : Z;
  remaining : Z;
  used : Z;
  reset_time : reset_str;
  hours_until_reset : Z
}.
End ScopeDisplay.

Module Display.
Record t : Type := {
  can_post : bool;
  app_24h : ScopeDisplay.t;
  user_24h : ScopeDisplay.t;
  window_15min : Z * Z
}.
End Display.

Inductive display : Type :=
| DisplayUnknown
| DisplayLimits (d : Display.t).

(** [if ts and ts > 0] *)
Definition valid_reset (reset_ts : option Z) : bool :=
  match reset_ts with
  | Some ts => bool_decide (ts ≠ 0) && (0 <? ts)
  | None => false
  end.

(** The block of [format_rate_limit_display] that formats one scope: the
    reset text and the hours until the reset. *)
Definition format_reset (tz now : Z) (reset_ts : option Z) : result (reset_str * Z) :=
  match reset_ts with
  | Some ts =>
      if valid_reset reset_ts then
        reset_dt ← fromtimestamp tz ts;
        hours_until ← dt_sub reset_dt (Naive now);
        if hours_until <=? 0
        then mret (ResettingNow, 0)
        else mret (ResetAt (seconds ts), hours_until)
      else mret (ResetUnknown, 0)
  | None => mret (ResetUnknown, 0)
  end.

Definition format_rate_limit_display (tz now : Z) (limits : option Limits.t) : result display :=
  match limits with
  | None => mret DisplayUnknown
  | Some limits =>
      if Limits.is_empty limits then mret DisplayUnknown else
      let app := get (Limits.app_24h limits) Scope.empty in
      let user := get (Limits.user_24h limits) Scope.empty in
      let window := get (Limits.window_15min limits) Scope.empty in
      let app_status := if get (Scope.remaining app) 0 =? 0 then EXHAUSTED else OK in
      let app_reset_ts := Scope.reset app in
      '(app_reset_str, app_hours_until) ← format_reset tz now app_reset_ts;
      let user_status := if get (Scope.remaining user) 0 =? 0 then EXHAUSTED else OK in
      let user_reset_ts := Scope.reset user in
      '(user_reset_str, user_hours_until) ← format_reset tz now user_reset_ts;
      let can_post :=
        (0 <? get (Scope.remaining app) 0) && (0 <? get (Scope.remaining user) 0) in
      let primary_reset_str :=
        if valid_reset user_reset_ts then user_reset_str else app_reset_str in
      let primary_hours_until :=
        if valid_reset user_reset_ts then user_hours_until else app_hours_until in
      mret (DisplayLimits
        {| Display.can_post := can_post;
           Display.app_24h :=
             {| ScopeDisplay.status := app_status;
                ScopeDisplay.limit := get (Scope.limit app) 17;
                ScopeDisplay.remaining := get (Scope.remaining app) 0;
                ScopeDisplay.used := get (Scope.limit app) 17 - get (Scope.remaining app) 0;
                ScopeDisplay.reset_time := primary_reset_str;
                ScopeDisplay.hours_until_reset := primary_hours_until |};
           Display.user_24h :=
             {| ScopeDisplay.status := user_status;
                ScopeDisplay.limit := get (Scope.limit user) 25;
                ScopeDisplay.remaining := get (Scope.remaining user) 0;
                ScopeDisplay.used := get (Scope.limit user) 25 - get (Scope.remaining user) 0;
                ScopeDisplay.reset_time := user_reset_str;
                ScopeDisplay.hours_until_reset := user_hours_until |};
           Display.window_15min :=
             (get (Scope.limit window) 1080000, get (Scope.remaining window) 1080000) |})
  end.

Inductive scope_name : Type := APP | USER.

(** The message of [check_can_post_tweet]:
    - "Rate limit status unknown - proceed with caution";
    - "<scope> 24-hour limit exhausted. Resets in <hours> hours at <reset>";
    - "Can post - <n> tweets remaining in 24h window". *)
Inductive message : Type :=
| StatusUnknown
| LimitExhausted (scope : scope_name) (hours : Z) (reset_dt : Z)
| CanPost (n : Z).

(** The two lines that compose the message of an exhausted scope. *)
Definition exhausted (tz now : Z) (scope : scope_name) (d : Scope.t) : result (bool * message) :=
  ts ← getitem "reset" (Scope.reset d);
  reset_dt ← fromtimestamp tz ts;
  hours ← dt_sub reset_dt (Naive now);
  mret (false, LimitExhausted scope hours (seconds ts)).

Definition check_can_post_tweet (tz now : Z) (fs : files) : result (bool * message) :=
  let limits := get_24h_rate_limits_from_api now fs in
  let limits :=
    match limits with
    | Some l => if Limits.is_empty l then get_cached_rate_limits now fs else Some l
    | None => get_cached_rate_limits now fs
    end in
  match limits with
  | None => mret (true, StatusUnknown)
  | Some limits =>
      if Limits.is_empty limits then mret (true, StatusUnknown) else
      let app := get (Limits.app_24h limits) Scope.empty in
      let user := get (Limits.user_24h limits) Scope.empty in
      let app_remaining := get (Scope.remaining app) 0 in
      let user_remaining := get (Scope.remaining user) 0 in
      if app_remaining =? 0 then exhausted tz now APP app
      else if user_remaining =? 0 then exhausted tz now USER user
      else mret (true, CanPost (Z.min app_remaining user_remaining))
  end.

(** *** [count_tweets_last_24h]

    The Twitter client is what its calls come to.  [created_at] of a tweet
    is a timezone-aware datetime in UTC, as the source notes and as the
    client parses it, and is kept as its instant;
    [replace(tzinfo=timezone.utc)] leaves such a datetime as it is, and
    the comparisons of the two loops raise nothing.  An exception
    is kept as its message, [str(e)]. *)

Inductive api_exn : Type :=
| TooManyRequests (message : string)
| OtherError (message : string).

Definition str (e : api_exn) : string :=
  match e with
  | TooManyRequests message | OtherError message => message
  end.

Inductive outcome (A : Type) : Type :=
| Response (a : A)
| Raises (e : api_exn).
Arguments Response {A} a.
Arguments Raises {A} e.

(** [me.data] *)
Module User.
Record t : Type := {
  id : Z;
  username : string
}.
End User.

(** An element of [response.data] of [get_users_tweets]. *)
Module ApiTweet.
Record t : Type := {
  id : Z;
  text : string;
  created_at : Z
}.
End ApiTweet.

(** An element of the timeline of API v1.1. *)
Module Status.
Record t : Type := {
  id_str : string;
  text : string;
  created_at : Z
}.
End Status.

(** [client_v2]: [get_me()] answers with the user ([None] when the response
    or its data is empty), [get_users_tweets(id=...)] with the tweets (none
    when the response or its data is empty). *)
Record client : Type := {
  get_me : outcome (option User.t);
  get_users_tweets : Z -> outcome (list ApiTweet.t)
}.

(** [api_v1] *)
Record api : Type := {
  user_timeline : outcome (list Status.t)
}.

(** An element of [tweets_in_24h]. *)
Module Recent.
Record t : Type := {
  id : Z + string;
  text : string;
  created_at : iso_string
}.
End Recent.

(** The dictionary [count_tweets_last_24h] returns; [error] is [None] and
    [cached] is [false] when the key is not set. *)
Module Counted.
Record t : Type := {
  count : Z;
  limit : Z;
  remaining : Z;
  tweets : list Recent.t;
  error : option string;
  cached : bool
}.
End Counted.

(** [text[:50] + '...' if len(text) > 50 else text] *)
Definition shorten (text : string) : string :=
  if (50 <? String.length text)%nat
  then String.append (String.substring 0 50 text) "..."
  else text.

(** The loop over [response.data]. *)
Definition recent_tweets (cutoff_time : Z) (data : list ApiTweet.t) : list Recent.t :=
  (fun tweet =>
     {| Recent.id := inl (ApiTweet.id tweet);
        Recent.text := shorten (ApiTweet.text tweet);
        Recent.created_at := IsoAware (ApiTweet.created_at tweet) 0 |})
  <$> filter (fun tweet => cutoff_time <= ApiTweet.created_at tweet) data.

(** The loop over the timeline of API v1.1. *)
Definition recent_statuses (cutoff_time : Z) (timeline : list Status.t) : list Recent.t :=
  (fun status =>
     {| Recent.id := inr (Status.id_str status);
        Recent.text := shorten (Status.text status);
        Recent.created_at := IsoAware (Status.created_at status) 0 |})
  <$> filter (fun status => cutoff_time <= Status.created_at status) timeline.

(** The dictionary of the returns that carry an [error]. *)
Definition failed (error : string) : Counted.t :=
  {| Counted.count := 0;
     Counted.limit := FREE_TIER_24H_LIMIT;
     Counted.remaining := FREE_TIER_24H_LIMIT;
     Counted.tweets := [];
     Counted.error := Some error;
     Counted.cached := false |}.

(** The first [try] of [count_tweets_last_24h]: the identifier of the
    user, or the error to return. *)
Definition authenticated_user (now : Z) (client_v2 : client) (fs : files) : Z + string :=
  match get_me client_v2 with
  | Response (Some me) => inl (User.id me)
  | Response None => inr "Could not get user info"%string
  | Raises (TooManyRequests _) =>
      match get_cached_rate_limits now fs ≫= Limits.user_id with
      | Some user_id => inl user_id
      | None => inr "Rate limited on /users/me"%string
      end
  | Raises (OtherError message) => inr message
  end.

(** The end of [count_tweets_last_24h]: the count is cached and
    returned. *)
Definition counted_and_cached (now user_id : Z) (tweets_in_24h : list Recent.t)
    (fs : files) : Counted.t * files :=
  let count := Z.of_nat (length tweets_in_24h) in
  let remaining := Z.max 0 (FREE_TIER_24H_LIMIT - count) in
  ({| Counted.count := count;
      Counted.limit := FREE_TIER_24H_LIMIT;
      Counted.remaining := remaining;
      Counted.tweets := tweets_in_24h;
      Counted.error := None;
      Counted.cached := false |},
   _save_cache (tweet_count_cache now count user_id) fs).

Definition count_tweets_last_24h (now : Z) (client_v2 : client) (api_v1 : option api)
    (fs : files) : Counted.t * files :=
  let cutoff_time := now - hours 24 in
  match authenticated_user now client_v2 fs with
  | inr error => (failed error, fs)
  | inl user_id =>
      match get_users_tweets client_v2 user_id with
      | Response data =>
          counted_and_cached now user_id (recent_tweets cutoff_time data) fs
      | Raises (TooManyRequests _) =>
          match get_cached_rate_limits now fs ≫= Limits.tweet_count_24h with
          | Some cached_count =>
              ({| Counted.count := cached_count;
                  Counted.limit := FREE_TIER_24H_LIMIT;
                  Counted.remaining := FREE_TIER_24H_LIMIT - cached_count;
                  Counted.tweets := [];
                  Counted.error := None;
                  Counted.cached := true |}, fs)
          | None => (failed "Rate limited on tweet fetch", fs)
          end
      | Raises (OtherError message) =>
          match api_v1 with
          | Some api_v1 =>
              match user_timeline api_v1 with
              | Response timeline =>
                  counted_and_cached now user_id (recent_statuses cutoff_time timeline) fs
              | Raises v1_error =>
                  (failed (String.append "Both v2 and v1.1 failed: "
                             (String.append message (String.append ", " (str v1_error)))),
                   fs)
              end
          | None => counted_and_cached now user_id [] fs
          end
      end
  end.

End TwitterRateLimits.

(** ** The two modules side by side: what the process has on disk *)

Record world : Type := {
  counter : TweetCounter.files;
  limits : TwitterRateLimits.files
}.

(** * Vocabulary of the statements *)

Import TweetCounter TwitterRateLimits.

(** [l] is in descending order of [key]. *)
Definition descending {A : Type} (key : A -> Z) : A -> A -> Prop :=
  fun a b => key b <= key a.

(** A well-formed entry of the action log: an identifier and an ISO-8601
    timestamp with a UTC offset. *)
Definition well_formed (tweet : Entry.t) : Prop :=
  is_Some (Entry.tweet_id tweet)
  /\ exists t offset, Entry.posted_at tweet = Some (IsoAware t offset)
                      /\ valid_offset offset = true.

(** The instant an ISO string denotes. *)
Definition instant_of (s : iso_string) : Z :=
  match s with
  | IsoMalformed => 0
  | IsoNaive t | IsoAware t _ => t
  end.

(** The instant of a well-formed entry. *)
Definition posted_instant (tweet : Entry.t) : Z :=
  from_option instant_of 0 (Entry.posted_at tweet).



(** The entries of the log whose timestamp is at or after [cutoff]. *)
Definition since (cutoff : Z) (tweet_log : list Entry.t) : list Entry.t :=
  filter (fun tweet => cutoff <= posted_instant tweet) tweet_log.

(** What [get_tweet_count_24h] reports of a well-formed entry. *)
Definition tweet_of (now : Z) (tweet : Entry.t) : Tweet.t :=
  {| Tweet.id := default ""%string (Entry.tweet_id tweet);
     Tweet.posted_at := default IsoMalformed (Entry.posted_at tweet);
     Tweet.text := default ""%string (Entry.text_preview tweet);
     Tweet.age_hours := now - posted_instant tweet |}.

(** An entry whose timestamp is missing or is not ISO-8601. *)
Definition bad_timestamp (tweet : Entry.t) : Prop :=
  Entry.posted_at tweet = None \/ Entry.posted_at tweet = Some IsoMalformed.

(** The dictionary of the [except] branch of [get_tweet_count_24h]. *)
Definition error_count (e : exn) : Count.t :=
  {| Count.count := 0;
     Count.limit := 17;
     Count.remaining := 17;
     Count.tweets := [];
     Count.oldest_tweet_age_hours := None;
     Count.source := "local_log";
     Count.api_rate_limit := None;
     Count.error := Some e |}.

(** The invariant of a quota snapshot: [remaining <= limit], on the two
    shapes a snapshot has on disk. *)
Definition cache_within_limit (data : Cache.t) : Prop :=
  forall r l, Cache.remaining data = Some r -> Cache.limit data = Some l -> r <= l.

Definition scope_within_limit (d : Scope.t) : Prop :=
  forall r l, Scope.remaining d = Some r -> Scope.limit d = Some l -> r <= l.

(** ** Scenarios *)

Module Scenario.

(** 2023-11-14T22:13:20Z, in epoch seconds; the scenarios are set around
    it. *)
Definition T0 : Z := 1700000000.

Definition entry (tweet_id : string) (posted_at : iso_string) : Entry.t :=
  {| Entry.tweet_id := Some tweet_id;
     Entry.posted_at := Some posted_at;
     Entry.text_preview := Some "Game of the night"%string;
     Entry.rate_limit_info := None |}.

Definition no_files : TweetCounter.files :=
  {| TWEET_LOG_FILE := NoFile;
     RATE_LIMIT_CACHE_FILE := NoFile;
     TweetCounter.disk_writable := true |}.

Definition no_cache : TwitterRateLimits.files :=
  {| CACHE_FILE := NoFile; TwitterRateLimits.disk_writable := true |}.

(** Nothing on disk. *)
Definition fresh : world := {| counter := no_files; limits := no_cache |}.

(** Seventeen tweets posted one hour before [T0], and no cache. *)
Definition full_log : world :=
  {| counter :=
       {| TWEET_LOG_FILE :=
            Contents (replicate 17 (entry "1724" (IsoAware (seconds T0 - hours 1) 0)));
          RATE_LIMIT_CACHE_FILE := NoFile;
          TweetCounter.disk_writable := true |};
     limits := no_cache |}.

(** Three tweets: two in the window of [T0], one two days old. *)
Definition three_tweets : TweetCounter.files :=
  {| TWEET_LOG_FILE :=
       Contents [entry "a" (IsoAware (seconds T0 - hours 5) 0);
                 entry "b" (IsoAware (seconds T0 - hours 50) 0);
                 entry "c" (IsoAware (seconds T0 - hours 1) 0)];
     RATE_LIMIT_CACHE_FILE := NoFile;
     TweetCounter.disk_writable := true |}.

(** A log whose second entry has no usable timestamp. *)
Definition damaged_log : TweetCounter.files :=
  {| TWEET_LOG_FILE :=
       Contents [entry "a" (IsoAware (seconds T0 - hours 5) 0);
                 entry "b" IsoMalformed;
                 entry "c" (IsoAware (seconds T0 - hours 1) 0)];
     RATE_LIMIT_CACHE_FILE := NoFile;
     TweetCounter.disk_writable := true |}.

Definition scope (limit remaining reset : Z) : Scope.t :=
  {| Scope.limit := Some limit;
     Scope.remaining := Some remaining;
     Scope.reset := Some reset |}.

(** A cache of limits read from a 429 response at [captured_at]. *)
Definition error_cache (captured_at : Z) (app user : Scope.t) : TwitterRateLimits.files :=
  {| CACHE_FILE :=
       Contents
         {| Limits.app_24h := Some app;
            Limits.user_24h := Some user;
            Limits.window_15min := Some (scope 300 0 0);
            Limits.timestamp := Some (IsoNaive captured_at);
            Limits.source := Some "error_headers"%string;
            Limits.tweet_count_24h := None;
            Limits.user_id := None |};
     TwitterRateLimits.disk_writable := true |}.

(** The latest-rate-limit cache of [tweet_counter], written at
    [captured_at]. *)
Definition latest (captured_at remaining reset : Z) : TweetCounter.files :=
  {| TWEET_LOG_FILE := NoFile;
     RATE_LIMIT_CACHE_FILE :=
       Contents
         {| Cache.remaining := Some remaining;
            Cache.limit := Some 17;
            Cache.reset := Some reset;
            Cache.timestamp := Some (IsoAware captured_at 0) |};
     TweetCounter.disk_writable := true |}.

(** The numbers of a response whose [remaining] is above its [limit]. *)
Definition info_over : gmap string Z :=
  {[ "remaining"%string := 20; "limit"%string := 17; "reset"%string := T0 + 3600 ]}.

(** The numbers of an ordinary response. *)
Definition info_ok : gmap string Z :=
  {[ "remaining"%string := 3; "limit"%string := 17; "reset"%string := T0 + 3600 ]}.

(** The headers of a 429 response that reports 20 of 17 remaining for the
    application. *)
Definition headers_over : gmap string header :=
  {[ "x-app-limit-24hour-limit"%string := HeaderInt 17;
     "x-app-limit-24hour-remaining"%string := HeaderInt 20;
     "x-app-limit-24hour-reset"%string := HeaderInt (T0 + 3600);
     "x-user-limit-24hour-limit"%string := HeaderInt 25;
     "x-user-limit-24hour-remaining"%string := HeaderInt 0;
     "x-user-limit-24hour-reset"%string := HeaderInt (T0 + 3600) ]}.

(** The headers of a 429 response of the free tier; the user limit is not
    reported. *)
Definition headers_exhausted : gmap string header :=
  {[ "x-app-limit-24hour-limit"%string := HeaderInt 17;
     "x-app-limit-24hour-remaining"%string := HeaderInt 0;
     "x-app-limit-24hour-reset"%string := HeaderInt (T0 + 3600);
     "x-user-limit-24hour-remaining"%string := HeaderInt 0;
     "x-user-limit-24hour-reset"%string := HeaderInt (T0 + 3600) ]}.

(** A cache captured one hour before [T0] whose application scope reports a
    negative [remaining]. *)
Definition negative_remaining : TwitterRateLimits.files :=
  error_cache (seconds T0 - hours 1) (scope 17 (-1) (T0 + 3600)) (scope 17 5 (T0 + 3600)).

(** A cache captured three hours before [T0], both scopes exhausted, whose
    reset time was two hours before [T0]. *)
Definition after_reset : TwitterRateLimits.files :=
  error_cache (seconds T0 - hours 3) (scope 17 0 (T0 - 7200)) (scope 17 0 (T0 - 7200)).

(** A cache captured three hours before [T0] whose user scope is exhausted
    and was to reset half an hour before [T0]. *)
Definition user_exhausted : TwitterRateLimits.files :=
  error_cache (seconds T0 - hours 3) (scope 17 4 (T0 - 1800)) (scope 17 0 (T0 - 1800)).

(** The cache as [count_tweets_last_24h] leaves it, one hour before [T0]:
    three tweets counted for user 42. *)
Definition count_cache : TwitterRateLimits.files :=
  {| CACHE_FILE := Contents (tweet_count_cache (seconds T0 - hours 1) 3 42);
     TwitterRateLimits.disk_writable := true |}.

(** The limits the handler of a rejection builds from [headers_exhausted]. *)
Definition tweet_limits (now : Z) : Limits.t :=
  {| Limits.app_24h := Some (scope 17 0 (T0 + 3600));
     Limits.user_24h := Some (scope 17 0 (T0 + 3600));
     Limits.window_15min := Some (scope 300 0 0);
     Limits.timestamp := Some (IsoNaive now);
     Limits.source := Some "error_headers"%string;
     Limits.tweet_count_24h := None;
     Limits.user_id := None |}.

(** A cache of limits whose application scope has no [reset]. *)
Definition no_reset : TwitterRateLimits.files :=
  error_cache (seconds T0 - hours 1)
    {| Scope.limit := Some 17; Scope.remaining := Some 0; Scope.reset := None |}
    (scope 17 0 (T0 + 3600)).

(** Two tweets written with different UTC offsets: "A", posted 4400 seconds
    before [T0] and written with the offset +01:00, and "B", posted 2600
    seconds before [T0] and written in UTC.  The text of "A" shows the
    later local time. *)
Definition mixed_offsets : TweetCounter.files :=
  {| TWEET_LOG_FILE :=
       Contents [entry "A" (IsoAware (seconds T0 - seconds 4400) (hours 1));
                 entry "B" (IsoAware (seconds T0 - seconds 2600) 0)];
     RATE_LIMIT_CACHE_FILE := NoFile;
     TweetCounter.disk_writable := true |}.

(** Five tweets in UTC, two of them posted at one instant. *)
Definition same_instant : TweetCounter.files :=
  {| TWEET_LOG_FILE :=
       Contents [entry "a" (IsoAware (seconds T0 - hours 3) 0);
                 entry "b" (IsoAware (seconds T0 - hours 2) 0);
                 entry "c" (IsoAware (seconds T0 - hours 5) 0);
                 entry "d" (IsoAware (seconds T0 - hours 2) 0);
                 entry "e" (IsoAware (seconds T0 - hours 1) 0)];
     RATE_LIMIT_CACHE_FILE := NoFile;
     TweetCounter.disk_writable := true |}.

End Scenario.

(** ** Vocabulary of the further properties *)

(** An entry whose timestamp parses to a datetime with a UTC offset. *)
Definition aware_timestamp (tweet : Entry.t) : Prop :=
  exists t offset, Entry.posted_at tweet = Some (IsoAware t offset)
                  /\ valid_offset offset = true.

(** An entry the loop of [get_tweet_count_24h] cannot get past: its
    timestamp is not a datetime with an offset, or it is in the window and
    has no identifier. *)
Definition offending (cutoff : Z) (tweet : Entry.t) : Prop :=
  ~ aware_timestamp tweet
  \/ (cutoff <= posted_instant tweet /\ Entry.tweet_id tweet = None).

(** The entry [log_tweet_posted] appends. *)
Definition logged_entry (now : Z) (tweet_id text_preview : string)
    (rate_limit_info : option (gmap string Z)) : Entry.t :=
  {| Entry.tweet_id := Some tweet_id;
     Entry.posted_at := Some (IsoAware now 0);
     Entry.text_preview := Some (preview text_preview);
     Entry.rate_limit_info :=
       match rate_limit_info with
       | Some info => if bool_decide (info = ∅) then None else Some info
       | None => None
       end |}.

(** The snapshot [_save_latest_rate_limit] writes for [info] at [now]. *)
Definition cache_of (now : Z) (info : gmap string Z) : Cache.t :=
  {| Cache.remaining := info !! "remaining"%string;
     Cache.limit := info !! "limit"%string;
     Cache.reset := info !! "reset"%string;
     Cache.timestamp := Some (IsoAware now 0) |}.

(** The dictionary of the [try] branch of [get_tweet_count_24h], for the
    tweets [tweets_24h] of the window and the cached rate limit
    [api_rate_limit]. *)
Definition counted (tweets_24h : list Tweet.t) (api_rate_limit : option Cache.t) : Count.t :=
  {| Count.count := Z.of_nat (length tweets_24h);
     Count.limit := 17;
     Count.remaining := Z.max 0 (17 - Z.of_nat (length tweets_24h));
     Count.tweets := sorted_reverse posted_key tweets_24h;
     Count.oldest_tweet_age_hours :=
       match tweets_24h with
       | [] => None
       | t :: l => Some (Tweet.age_hours (py_min posted_key t l))
       end;
     Count.source := "local_log";
     Count.api_rate_limit := api_rate_limit;
     Count.error := None |}.

(** The cache [data] is one [get_cached_rate_limits] accepts at [now]: its
    timestamp is a datetime without UTC offset, less than 24 hours back. *)
Definition accepted (now : Z) (data : Limits.t) : Prop :=
  exists t, Limits.timestamp data = Some (IsoNaive t) /\ now - t < hours 24.

(** [data] with another [source]. *)
Definition with_source (source : option string) (data : Limits.t) : Limits.t :=
  {| Limits.app_24h := Limits.app_24h data;
     Limits.user_24h := Limits.user_24h data;
     Limits.window_15min := Limits.window_15min data;
     Limits.timestamp := Limits.timestamp data;
     Limits.source := source;
     Limits.tweet_count_24h := Limits.tweet_count_24h data;
     Limits.user_id := Limits.user_id data |}.

(** The files of [twitter_rate_limits] with [data] in the cache. *)
Definition cached (data : Limits.t) : TwitterRateLimits.files :=
  {| CACHE_FILE := Contents data; TwitterRateLimits.disk_writable := true |}.

(** The [remaining] the gate and the display read for a scope: 0 when the
    scope or the field is not there. *)
Definition remaining_of (scope : option Scope.t) : Z :=
  get (Scope.remaining (get scope Scope.empty)) 0.

(** The [reset] the gate and the display read for a scope. *)
Definition reset_of (scope : option Scope.t) : option Z :=
  Scope.reset (get scope Scope.empty).

(** A reset time [format_rate_limit_display] can show on a machine [tz]
    seconds ahead of UTC: where it is there and above zero, it is a
    timestamp that [datetime.fromtimestamp] converts. *)
Definition displayable (tz : Z) (reset_ts : option Z) : Prop :=
  forall ts, reset_ts = Some ts -> 0 < ts -> local_representable tz ts = true.

(** ** Clients of the scenarios *)

Module Clients.

(** A client whose every call is answered by 429. *)
Definition rate_limited : client :=
  {| get_me := Raises (TooManyRequests "429 Too Many Requests");
     get_users_tweets := fun _ => Raises (TooManyRequests "429 Too Many Requests") |}.

(** A client that knows the user [me] and answers with [data]. *)
Definition answering (me : User.t) (data : list ApiTweet.t) : client :=
  {| get_me := Response (Some me);
     get_users_tweets := fun _ => Response data |}.

(** A client that knows the user [me] and is refused the tweets. *)
Definition fetch_limited (me : User.t) : client :=
  {| get_me := Response (Some me);
     get_users_tweets := fun _ => Raises (TooManyRequests "429 Too Many Requests") |}.

(** A client that knows the user [me] and whose fetch breaks. *)
Definition broken (me : User.t) : client :=
  {| get_me := Response (Some me);
     get_users_tweets := fun _ => Raises (OtherError "Connection reset by peer") |}.

Definition nba : User.t := {| User.id := 42; User.username := "NBAPredictLab" |}.

Definition tweet (id created_at : Z) : ApiTweet.t :=
  {| ApiTweet.id := id;
     ApiTweet.text := "Lakers vs Celtics: our model gives the Lakers 61.5% tonight";
     ApiTweet.created_at := created_at |}.

(** Two tweets of the last day and one of the day before, as seen from
    [Scenario.T0]. *)
Definition timeline : list ApiTweet.t :=
  [tweet 3 (seconds Scenario.T0 - hours 1);
   tweet 2 (seconds Scenario.T0 - hours 5);
   tweet 1 (seconds Scenario.T0 - hours 30)].

(** A cache that holds a count of [count] tweets for user 42, taken at
    [taken_at]. *)
Definition counted_before (taken_at count : Z) : TwitterRateLimits.files :=
  cached (tweet_count_cache taken_at count 42).

End Clients.

(** What every dictionary of [count_tweets_last_24h] satisfies at [now]:
    [limit] is 17; unless the dictionary comes from the cache, [count] is
    the number of tweets listed and [remaining] is [max(0, 17 - count)];
    every tweet listed was created at or after [now - 24h] and has a text
    of at most 53 characters. *)
Definition consistent_count (now : Z) (result : Counted.t) : Prop :=
  Counted.limit result = 17
  /\ (Counted.cached result = false ->
      Counted.count result = Z.of_nat (length (Counted.tweets result))
      /\ Counted.remaining result = Z.max 0 (17 - Counted.count result)
      /\ 0 <= Counted.remaining result <= 17)
  /\ (forall tweet, tweet ∈ Counted.tweets result ->
        (String.length (Recent.text tweet) <= 53)%nat
        /\ exists t, Recent.created_at tweet = IsoAware t 0 /\ now - hours 24 <= t).

(** * Properties *)

(** Proves that a closed log is made of well-formed entries. *)
Ltac well_formed_log :=
  repeat (apply Forall_cons_2;
          [by repeat eexists|]);
  apply Forall_nil_2.

(** ** The result monad *)

Section result_facts.
Context {A B : Type}.

(** A computation whose continuation raises on every value raises. *)
Lemma bind_raises (m : result A) (k : A -> result B) :
  (forall a, exists e, k a = Raise e) -> exists e, (m ≫= k) = Raise e.
Proof. intros Hk. destruct m as [a|e]; [apply Hk|by exists e]. Qed.
End result_facts.

(** ** Sorting as [sorted(..., reverse=True)] does *)

Section sorting.
Context {A : Type} (key : A -> Z).

Lemma insert_reverse_perm (x : A) (l : list A) :
  insert_reverse key x l ≡ₚ x :: l.
Proof.
  induction l as [|y l IH]; simpl; [done|].
  destruct (key y <=? key x); [done|].
  rewrite IH. apply perm_swap.
Qed.

Lemma sorted_reverse_perm (l : list A) : sorted_reverse key l ≡ₚ l.
Proof.
  induction l as [|x l IH]; simpl; [done|].
  rewrite insert_reverse_perm. by f_equiv.
Qed.

Lemma insert_reverse_sorted (x : A) (l : list A) :
  StronglySorted (descending key) l ->
  StronglySorted (descending key) (insert_reverse key x l).
Proof.
  induction 1 as [|y l Hl IH Hy]; simpl.
  - repeat constructor.
  - destruct (Z.leb_spec (key y) (key x)) as [Hle|Hgt].
    + constructor; [by constructor|].
      constructor; [done|].
      eapply Forall_impl; [exact Hy|]. unfold descending. intros; simpl in *; lia.
    + constructor; [done|].
      rewrite insert_reverse_perm. constructor; [|done].
      unfold descending; lia.
Qed.

Lemma sorted_reverse_sorted (l : list A) :
  StronglySorted (descending key) (sorted_reverse key l).
Proof.
  induction l as [|x l IH]; simpl; [constructor|].
  by apply insert_reverse_sorted.
Qed.

(** Elements of equal key keep the order they had: the sort is stable,
    as Python's is under [reverse=True]. *)
Lemma insert_reverse_filter (P : A -> Prop) `{!forall a, Decision (P a)}
    (x : A) (l : list A) :
  (forall a b, P a -> P b -> key a = key b) ->
  StronglySorted (descending key) l ->
  filter P (insert_reverse key x l) = filter P (x :: l).
Proof.
  intros Heq. induction 1 as [|y l Hl IH Hy]; simpl; [done|].
  destruct (Z.leb_spec (key y) (key x)) as [Hle|Hgt]; [done|].
  rewrite (filter_cons P y), IH, !(filter_cons P x), (filter_cons P y).
  destruct (decide (P y)) as [Py|]; [|done].
  destruct (decide (P x)) as [Px|]; [|done].
  specialize (Heq _ _ Px Py). lia.
Qed.

Lemma sorted_reverse_stable (P : A -> Prop) `{!forall a, Decision (P a)}
    (l : list A) :
  (forall a b, P a -> P b -> key a = key b) ->
  filter P (sorted_reverse key l) = filter P l.
Proof.
  intros Heq. induction l as [|x l IH]; simpl; [done|].
  rewrite insert_reverse_filter by auto using sorted_reverse_sorted.
  by rewrite !filter_cons, IH.
Qed.
End sorting.

(** ** The action log: [get_tweet_count_24h] *)

Section action_log.

Lemma tweets_since_well_formed (now cutoff : Z) (tweet_log : list Entry.t) :
  Forall well_formed tweet_log ->
  tweets_since now cutoff tweet_log = Ok (tweet_of now <$> since cutoff tweet_log).
Proof.
  unfold since.
  induction 1 as [|tweet rest [[id Hid] (t & offset & Ht & Hv)] _ IH]; [done|].
  cbn [tweets_since]. rewrite Ht, Hid. cbn. rewrite Hv. cbn.
  rewrite IH.
  assert (Hp : posted_instant tweet = t) by (unfold posted_instant; by rewrite Ht).
  destruct (Z.leb_spec cutoff t) as [Hle|Hgt].
  - rewrite decide_True by (by rewrite Hp). cbn.
    unfold tweet_of, get. by rewrite Hp, Hid, Ht.
  - rewrite decide_False by (rewrite Hp; lia). done.
Qed.

Lemma tweets_since_bad_timestamp (now cutoff : Z) (tweet_log : list Entry.t) :
  Exists bad_timestamp tweet_log ->
  exists e, tweets_since now cutoff tweet_log = Raise e.
Proof.
  induction 1 as [tweet rest [Hbad|Hbad]|tweet rest _ [e IH]];
    cbn [tweets_since].
  - rewrite Hbad. cbn. eauto.
  - rewrite Hbad. cbn. eauto.
  - apply bind_raises; intros s.
    apply bind_raises; intros posted.
    apply bind_raises; intros [].
    + do 2 (apply bind_raises; intros ?).
      rewrite IH. by exists e.
    + by exists e.
Qed.

Lemma load_tweet_log_contents (fs : TweetCounter.files) (tweet_log : list Entry.t) :
  TWEET_LOG_FILE fs = Contents tweet_log -> _load_tweet_log fs = tweet_log.
Proof. unfold _load_tweet_log. by intros ->. Qed.

Lemma load_tweet_log_absent (fs : TweetCounter.files) :
  TWEET_LOG_FILE fs = NoFile \/ TWEET_LOG_FILE fs = Corrupt ->
  _load_tweet_log fs = [].
Proof. unfold _load_tweet_log. by intros [-> | ->]. Qed.

(** The count and the remaining quota on a well-formed log. *)
Lemma count_well_formed (now : Z) (fs : TweetCounter.files) :
  Forall well_formed (_load_tweet_log fs) ->
  let result := (get_tweet_count_24h now fs).1 in
  Count.count result
    = Z.of_nat (length (since (now - hours 24) (_load_tweet_log fs)))
  /\ Count.remaining result = Z.max 0 (17 - Count.count result)
  /\ Count.source result = "local_log"%string
  /\ Count.error result = None.
Proof.
  intros Hwf. unfold get_tweet_count_24h.
  rewrite (tweets_since_well_formed _ _ _ Hwf). cbn.
  by rewrite length_fmap.
Qed.

Lemma since_Forall (P : Entry.t -> Prop) (cutoff : Z) (tweet_log : list Entry.t) :
  Forall P tweet_log -> Forall P (since cutoff tweet_log).
Proof.
  unfold since. induction 1 as [|tweet rest]; [constructor|].
  rewrite filter_cons. destruct (decide _); [by constructor|done].
Qed.





(** On every well-formed log, whatever the offsets its timestamps are
    written with, the tweets listed are those of the window, in
    descending order of the texts of their timestamps. *)
Lemma tweets_sorted_by_text (now : Z) (fs : TweetCounter.files) :
  Forall well_formed (_load_tweet_log fs) ->
  let result := (get_tweet_count_24h now fs).1 in
  Count.tweets result ≡ₚ tweet_of now <$> since (now - hours 24) (_load_tweet_log fs)
  /\ StronglySorted (descending posted_key) (Count.tweets result).
Proof.
  intros Hwf. unfold get_tweet_count_24h.
  rewrite (tweets_since_well_formed _ _ _ Hwf). cbn.
  split; [apply sorted_reverse_perm|apply sorted_reverse_sorted].
Qed.



(** The run behind the witness: two of the three tweets count, fifteen
    posts remain, and the tweet of one hour ago comes first. *)
Example three_tweets_count :
  let result := (get_tweet_count_24h (seconds Scenario.T0) Scenario.three_tweets).1 in
  Count.count result = 2
  /\ Count.remaining result = 15
  /\ Tweet.id <$> Count.tweets result = ["c"; "a"]%string
  /\ Count.oldest_tweet_age_hours result = Some (hours 5).
Proof. vm_compute. done. Qed.

(** On a log that mixes UTC offsets the order is that of the texts: "A",
    written with +01:00, shows the later local time and comes first,
    though "B" was posted after it, and the age reported as the oldest is
    that of "B". *)
Example mixed_offsets_count :
  let result := (get_tweet_count_24h (seconds Scenario.T0) Scenario.mixed_offsets).1 in
  Count.count result = 2
  /\ Tweet.id <$> Count.tweets result = ["A"; "B"]%string
  /\ Tweet.age_hours <$> Count.tweets result = [seconds 4400; seconds 2600]
  /\ Count.oldest_tweet_age_hours result = Some (seconds 2600).
Proof. vm_compute. done. Qed.

(** C10.  If the action log parses but holds an entry whose [posted_at] is
    missing or malformed, [get_tweet_count_24h] returns the dictionary of
    its [except] branch: count 0, remaining 17, no tweets and an error,
    whatever well-formed entries the log holds besides; it raises
    nothing and leaves the files as they were. *)
Theorem get_tweet_count_24h_bad_timestamp (now : Z) (fs : TweetCounter.files)
    (tweet_log : list Entry.t) :
  TWEET_LOG_FILE fs = Contents tweet_log ->
  Exists bad_timestamp tweet_log ->
  exists e, get_tweet_count_24h now fs = (error_count e, fs).
Proof.
  intros Hfile Hbad. unfold get_tweet_count_24h.
  rewrite (load_tweet_log_contents _ _ Hfile).
  destruct (tweets_since_bad_timestamp now (now - hours 24) _ Hbad) as [e ->].
  by exists e.
Qed.

Lemma get_tweet_count_24h_bad_timestamp_witness :
  exists tweet_log,
    TWEET_LOG_FILE Scenario.damaged_log = Contents tweet_log
    /\ Exists bad_timestamp tweet_log
    /\ exists e, get_tweet_count_24h (seconds Scenario.T0) Scenario.damaged_log
                 = (error_count e, Scenario.damaged_log).
Proof.
  eexists. split; [reflexivity|].
  assert (Hbad : Exists bad_timestamp
                   [Scenario.entry "a" (IsoAware (seconds Scenario.T0 - hours 5) 0);
                    Scenario.entry "b" IsoMalformed;
                    Scenario.entry "c" (IsoAware (seconds Scenario.T0 - hours 1) 0)]).
  { apply Exists_cons_tl, Exists_cons_hd. right. reflexivity. }
  split; [exact Hbad|].
  exact (get_tweet_count_24h_bad_timestamp (seconds Scenario.T0) Scenario.damaged_log
           _ eq_refl Hbad).
Defined.

End action_log.

(** ** The latest-rate-limit cache of [tweet_counter] *)

Section latest_rate_limit.

Lemma fromtimestamp_utc_representable (ts : Z) :
  representable ts = true -> fromtimestamp_utc ts = Ok (Aware (seconds ts) 0).
Proof. unfold fromtimestamp_utc. by intros ->. Qed.

(** An exhausted snapshot is evidence until its reset, whatever its
    timestamp (which is not even read). *)
Lemma exhausted_until_reset (now r : Z) (fs : TweetCounter.files) (data : Cache.t) :
  RATE_LIMIT_CACHE_FILE fs = Contents data ->
  Cache.remaining data = Some 0 ->
  Cache.reset data = Some r ->
  r <> 0 ->
  representable r = true ->
  get_latest_rate_limit now fs = (if now <? seconds r then Some data else None).
Proof.
  intros Hfile Hrem Hreset Hr Hrep. unfold get_latest_rate_limit.
  rewrite Hfile. cbn. rewrite Hrem, Hreset. cbn.
  rewrite bool_decide_true by done.
  rewrite bool_decide_true by done. cbn.
  rewrite (fromtimestamp_utc_representable _ Hrep). cbn.
  by destruct (now <? seconds r).
Qed.

(** Any other snapshot is judged by its age alone. *)
Lemma fresh_for_one_hour (now t offset : Z) (fs : TweetCounter.files) (data : Cache.t) :
  RATE_LIMIT_CACHE_FILE fs = Contents data ->
  Cache.remaining data <> Some 0 \/ default 0 (Cache.reset data) = 0 ->
  Cache.timestamp data = Some (IsoAware t offset) ->
  valid_offset offset = true ->
  get_latest_rate_limit now fs
    = (if now - t <? seconds 3600 then Some data else None).
Proof.
  intros Hfile Hrem Hts Hv. unfold get_latest_rate_limit.
  rewrite Hfile. cbn.
  assert (bool_decide (Cache.remaining data = Some 0)
          && bool_decide (default 0 (Cache.reset data) ≠ 0) = false) as ->.
  { destruct Hrem as [Hrem|Hrem].
    - by rewrite (bool_decide_false _ Hrem).
    - rewrite (bool_decide_false (_ ≠ _)) by (by intros []).
      apply andb_false_r. }
  rewrite Hts. cbn. rewrite Hv. cbn.
  by destruct (now - t <? seconds 3600).
Qed.

(** Absent or unreadable, the cache file is no data. *)
Lemma get_latest_rate_limit_no_file (now : Z) (fs : TweetCounter.files) :
  RATE_LIMIT_CACHE_FILE fs = NoFile \/ RATE_LIMIT_CACHE_FILE fs = Corrupt ->
  get_latest_rate_limit now fs = None.
Proof. unfold get_latest_rate_limit. by intros [-> | ->]. Qed.

End latest_rate_limit.

(** ** Construction of snapshots *)

Section construction.

(** What [_save_latest_rate_limit] leaves in the cache file. *)
Lemma save_latest_rate_limit_contents (now : Z) (info : gmap string Z)
    (fs : TweetCounter.files) :
  TweetCounter.disk_writable fs = true ->
  RATE_LIMIT_CACHE_FILE (_save_latest_rate_limit now info fs)
    = Contents {| Cache.remaining := info !! "remaining"%string;
                  Cache.limit := info !! "limit"%string;
                  Cache.reset := info !! "reset"%string;
                  Cache.timestamp := Some (IsoAware now 0) |}.
Proof. unfold _save_latest_rate_limit. by intros ->. Qed.

(** With a read-only data directory the files keep what they had. *)
Lemma save_latest_rate_limit_read_only (now : Z) (info : gmap string Z)
    (fs : TweetCounter.files) :
  TweetCounter.disk_writable fs = false ->
  _save_latest_rate_limit now info fs = fs.
Proof. unfold _save_latest_rate_limit. by intros ->. Qed.

(** A scope read from headers holds, for each of its three numbers, what
    [int_or] made of the header. *)
Lemma scope_from_headers_Ok (headers : gmap string header)
    (limit_name remaining_name reset_name : string) (default_limit : Z) (d : Scope.t) :
  scope_from_headers headers limit_name remaining_name reset_name default_limit = Ok d ->
  exists l r t,
    int_or (headers !! limit_name) default_limit = Ok l
    /\ int_or (headers !! remaining_name) 0 = Ok r
    /\ int_or (headers !! reset_name) 0 = Ok t
    /\ d = {| Scope.limit := Some l; Scope.remaining := Some r; Scope.reset := Some t |}.
Proof.
  unfold scope_from_headers. intros H.
  destruct (int_or (headers !! limit_name) default_limit) as [l|]; [|done].
  destruct (int_or (headers !! remaining_name) 0) as [r|]; [|done].
  destruct (int_or (headers !! reset_name) 0) as [t|]; [|done].
  injection H as <-. by exists l, r, t.
Qed.

Lemma limits_from_error_headers_Ok (now : Z) (headers : gmap string header)
    (lim : Limits.t) :
  limits_from_error_headers now headers = Ok lim ->
  exists app user,
    Limits.app_24h lim = Some app
    /\ Limits.user_24h lim = Some user
    /\ scope_from_headers headers "x-app-limit-24hour-limit"
         "x-app-limit-24hour-remaining" "x-app-limit-24hour-reset" 17 = Ok app
    /\ scope_from_headers headers "x-user-limit-24hour-limit"
         "x-user-limit-24hour-remaining" "x-user-limit-24hour-reset" 17 = Ok user.
Proof.
  unfold limits_from_error_headers. intros H.
  destruct (scope_from_headers headers "x-app-limit-24hour-limit" _ _ _) as [app|]; [|done].
  destruct (scope_from_headers headers "x-user-limit-24hour-limit" _ _ _) as [user|]; [|done].
  destruct (scope_from_headers headers "x-rate-limit-limit" _ _ _) as [window|]; [|done].
  injection H as <-. by exists app, user.
Qed.

(** C8, as the code has it.  A snapshot is built from the numbers it is
    given, unchanged: [_save_latest_rate_limit] stores the [remaining] and
    [limit] of the [rate_limit_info] it receives, and the handler of a
    rejection stores for each 24-hour header its integer value (17 for an
    absent limit, 0 for an absent remaining).  Nothing is clamped or
    rejected, so a stored snapshot satisfies [remaining <= limit] exactly
    when the numbers it was built from do. *)
Theorem snapshots_keep_their_input (now : Z) (info : gmap string Z)
    (fs : TweetCounter.files) (r l : Z)
    (headers : gmap string header) (lim : Limits.t) :
  TweetCounter.disk_writable fs = true ->
  info !! "remaining"%string = Some r ->
  info !! "limit"%string = Some l ->
  limits_from_error_headers now headers = Ok lim ->
  (exists data,
      RATE_LIMIT_CACHE_FILE (_save_latest_rate_limit now info fs) = Contents data
      /\ Cache.remaining data = Some r
      /\ Cache.limit data = Some l
      /\ (cache_within_limit data <-> r <= l))
  /\ (exists app user al ar ul ur,
      Limits.app_24h lim = Some app
      /\ Limits.user_24h lim = Some user
      /\ int_or (headers !! "x-app-limit-24hour-limit"%string) 17 = Ok al
      /\ int_or (headers !! "x-app-limit-24hour-remaining"%string) 0 = Ok ar
      /\ int_or (headers !! "x-user-limit-24hour-limit"%string) 17 = Ok ul
      /\ int_or (headers !! "x-user-limit-24hour-remaining"%string) 0 = Ok ur
      /\ Scope.limit app = Some al /\ Scope.remaining app = Some ar
      /\ Scope.limit user = Some ul /\ Scope.remaining user = Some ur
      /\ (scope_within_limit app <-> ar <= al)
      /\ (scope_within_limit user <-> ur <= ul)).
Proof.
  intros Hw Hr Hl Hlim. split.
  - eexists. split; [by apply save_latest_rate_limit_contents|].
    unfold cache_within_limit. cbn. rewrite Hr, Hl.
    repeat split; [intros Hin; by apply Hin|].
    by intros ? ? ? [= <-] [= <-].
  - destruct (limits_from_error_headers_Ok _ _ _ Hlim)
      as (app & user & Happ & Huser & Ha & Hu).
    destruct (scope_from_headers_Ok _ _ _ _ _ _ Ha) as (al & ar & ? & ? & ? & ? & ->).
    destruct (scope_from_headers_Ok _ _ _ _ _ _ Hu) as (ul & ur & ? & ? & ? & ? & ->).
    eexists _, _, al, ar, ul, ur. cbn.
    repeat split; try done; unfold scope_within_limit; cbn.
    + intros Hin. by apply Hin.
    + by intros ? ? ? [= <-] [= <-].
    + intros Hin. by apply Hin.
    + by intros ? ? ? [= <-] [= <-].
Qed.

Lemma snapshots_keep_their_input_witness :
  let now := seconds Scenario.T0 in
  (exists data,
      RATE_LIMIT_CACHE_FILE (_save_latest_rate_limit now Scenario.info_ok Scenario.no_files)
        = Contents data
      /\ Cache.remaining data = Some 3
      /\ Cache.limit data = Some 17
      /\ (cache_within_limit data <-> 3 <= 17))
  /\ (exists app user al ar ul ur,
      Limits.app_24h (Scenario.tweet_limits now) = Some app
      /\ Limits.user_24h (Scenario.tweet_limits now) = Some user
      /\ int_or (Scenario.headers_exhausted !! "x-app-limit-24hour-limit"%string) 17 = Ok al
      /\ int_or (Scenario.headers_exhausted !! "x-app-limit-24hour-remaining"%string) 0 = Ok ar
      /\ int_or (Scenario.headers_exhausted !! "x-user-limit-24hour-limit"%string) 17 = Ok ul
      /\ int_or (Scenario.headers_exhausted !! "x-user-limit-24hour-remaining"%string) 0 = Ok ur
      /\ Scope.limit app = Some al /\ Scope.remaining app = Some ar
      /\ Scope.limit user = Some ul /\ Scope.remaining user = Some ur
      /\ (scope_within_limit app <-> ar <= al)
      /\ (scope_within_limit user <-> ur <= ul)).
Proof.
  exact (snapshots_keep_their_input (seconds Scenario.T0) Scenario.info_ok
           Scenario.no_files 3 17 Scenario.headers_exhausted
           (Scenario.tweet_limits (seconds Scenario.T0)) eq_refl eq_refl eq_refl eq_refl).
Defined.

(** C8 fails as the spec states it: a response that reports 20 remaining
    of a limit of 17 is stored as it came, by [log_tweet_posted] (through
    [_save_latest_rate_limit]) and by the handler of a rejection alike. *)
Lemma remaining_above_limit_is_stored :
  (exists data,
      RATE_LIMIT_CACHE_FILE
        (log_tweet_posted (seconds Scenario.T0) "1724" "Game of the night"
           (Some Scenario.info_over) Scenario.no_files) = Contents data
      /\ Cache.remaining data = Some 20
      /\ Cache.limit data = Some 17
      /\ ~ cache_within_limit data)
  /\ (exists lim app,
      limits_from_error_headers (seconds Scenario.T0) Scenario.headers_over = Ok lim
      /\ Limits.app_24h lim = Some app
      /\ Scope.remaining app = Some 20
      /\ Scope.limit app = Some 17
      /\ ~ scope_within_limit app).
Proof.
  split.
  - eexists. split; [vm_compute; reflexivity|].
    repeat split. intros H. specialize (H 20 17 eq_refl eq_refl). lia.
  - eexists _, _. split; [vm_compute; reflexivity|].
    repeat split. intros H. specialize (H 20 17 eq_refl eq_refl). lia.
Qed.

End construction.

(** ** The admission check: [check_can_post_tweet] *)

Section admission.

Lemma get_cached_rate_limits_no_file (now : Z) (fs : TwitterRateLimits.files) :
  CACHE_FILE fs = NoFile \/ CACHE_FILE fs = Corrupt ->
  get_cached_rate_limits now fs = None.
Proof. unfold get_cached_rate_limits. by intros [-> | ->]. Qed.

(** The cache is judged by the age of its timestamp alone; the reset times
    it holds are not read. *)
Lemma get_cached_rate_limits_age (now t : Z) (fs : TwitterRateLimits.files)
    (data : Limits.t) :
  CACHE_FILE fs = Contents data ->
  Limits.timestamp data = Some (IsoNaive t) ->
  get_cached_rate_limits now fs = (if now - t <? hours 24 then Some data else None).
Proof.
  intros Hfile Hts. unfold get_cached_rate_limits.
  rewrite Hfile. cbn. rewrite Hts. cbn.
  by destruct (now - t <? hours 24).
Qed.

(** What the loader returns is the content of the file, and it has a
    timestamp. *)
Lemma get_cached_rate_limits_Some (now : Z) (fs : TwitterRateLimits.files)
    (data : Limits.t) :
  get_cached_rate_limits now fs = Some data ->
  CACHE_FILE fs = Contents data /\ is_Some (Limits.timestamp data).
Proof.
  unfold get_cached_rate_limits.
  destruct (CACHE_FILE fs) as [| |d]; [done..|]. cbn.
  destruct (Limits.timestamp d) as [[|t|t offset]|] eqn:Hts; cbn;
    [done| |by destruct (valid_offset offset)|done].
  destruct (now - t <? hours 24); cbn; [|done].
  intros [= <-]. by rewrite Hts.
Qed.

Lemma timestamped_not_empty (data : Limits.t) :
  is_Some (Limits.timestamp data) -> Limits.is_empty data = false.
Proof. destruct data as [[] [] [] [] [] [] []]; cbn; by intros [? [=]]. Qed.

(** Without a cache the gate lets the caller try. *)
Lemma check_without_limits (tz now : Z) (fs : TwitterRateLimits.files) :
  get_cached_rate_limits now fs = None ->
  get_24h_rate_limits_from_api now fs = None
  /\ check_can_post_tweet tz now fs = Ok (true, StatusUnknown).
Proof.
  intros H. unfold check_can_post_tweet, get_24h_rate_limits_from_api.
  by rewrite H.
Qed.

(** With a cache, whatever its source, the gate decides on it. *)
Lemma check_with_limits (tz now : Z) (fs : TwitterRateLimits.files) (data : Limits.t) :
  get_cached_rate_limits now fs = Some data ->
  check_can_post_tweet tz now fs =
    let app := get (Limits.app_24h data) Scope.empty in
    let user := get (Limits.user_24h data) Scope.empty in
    if get (Scope.remaining app) 0 =? 0 then exhausted tz now APP app
    else if get (Scope.remaining user) 0 =? 0 then exhausted tz now USER user
    else Ok (true, CanPost (Z.min (get (Scope.remaining app) 0)
                                  (get (Scope.remaining user) 0))).
Proof.
  intros H.
  destruct (get_cached_rate_limits_Some _ _ _ H) as [_ Hts].
  apply timestamped_not_empty in Hts.
  unfold check_can_post_tweet, get_24h_rate_limits_from_api.
  rewrite H.
  destruct (from_429_error data); rewrite ?Hts; cbn beta iota; by rewrite ?H, ?Hts.
Qed.

Lemma exhausted_denies (tz now : Z) (scope : scope_name) (d : Scope.t) (m : message) :
  exhausted tz now scope d <> Ok (true, m).
Proof.
  unfold exhausted.
  destruct (getitem "reset" (Scope.reset d)) as [ts|]; [|done]. cbn.
  destruct (fromtimestamp tz ts) as [[t|t]|]; cbn; intros [=].
Qed.


(** An exhausted scope without a reset time makes the lookup raise. *)
Lemma exhausted_without_reset (tz now : Z) (scope : scope_name) (d : Scope.t) :
  Scope.reset d = None -> exhausted tz now scope d = Raise (KeyError "reset").
Proof. unfold exhausted. by intros ->. Qed.

(** The gate raises on every accepted cache whose application scope is
    missing, or is exhausted and has no reset time. *)
Lemma check_raises_without_reset (tz now : Z) (fs : TwitterRateLimits.files)
    (data : Limits.t) :
  get_cached_rate_limits now fs = Some data ->
  get (Scope.remaining (get (Limits.app_24h data) Scope.empty)) 0 = 0 ->
  Scope.reset (get (Limits.app_24h data) Scope.empty) = None ->
  check_can_post_tweet tz now fs = Raise (KeyError "reset").
Proof.
  intros H Hrem Hreset.
  rewrite (check_with_limits tz _ _ _ H). cbn zeta. rewrite Hrem. cbn.
  by apply exhausted_without_reset.
Qed.

(** The gate allows exactly when neither [remaining] is zero. *)
Lemma check_allowed_iff_nonzero (tz now : Z) (fs : TwitterRateLimits.files)
    (data : Limits.t) (app user : Scope.t) (a u : Z) :
  get_cached_rate_limits now fs = Some data ->
  Limits.app_24h data = Some app -> Scope.remaining app = Some a ->
  Limits.user_24h data = Some user -> Scope.remaining user = Some u ->
  (exists m, check_can_post_tweet tz now fs = Ok (true, m)) <-> a <> 0 /\ u <> 0.
Proof.
  intros H Ha Hra Hu Hru.
  rewrite (check_with_limits tz _ _ _ H), Ha, Hu. cbn. rewrite Hra, Hru. cbn.
  destruct (Z.eqb_spec a 0) as [->|Hna].
  { split; [intros [m Hm]; by apply exhausted_denies in Hm|by intros [? _]]. }
  destruct (Z.eqb_spec u 0) as [->|Hnu].
  { split; [intros [m Hm]; by apply exhausted_denies in Hm|by intros [_ ?]]. }
  split; [done|]. intros _. by eexists.
Qed.

(** On the snapshots of the data model, whose [remaining] is not negative,
    that is: exactly when both are above zero. *)
Lemma check_allowed_iff_positive (tz now : Z) (fs : TwitterRateLimits.files)
    (data : Limits.t) (app user : Scope.t) (a u : Z) :
  get_cached_rate_limits now fs = Some data ->
  Limits.app_24h data = Some app -> Scope.remaining app = Some a ->
  Limits.user_24h data = Some user -> Scope.remaining user = Some u ->
  0 <= a -> 0 <= u ->
  (exists m, check_can_post_tweet tz now fs = Ok (true, m)) <-> 0 < a /\ 0 < u.
Proof.
  intros H Ha Hra Hu Hru ? ?.
  rewrite (check_allowed_iff_nonzero tz _ _ _ _ _ _ _ H Ha Hra Hu Hru). lia.
Qed.

(** The display clamps: the hours until a reset are never negative. *)
Lemma format_reset_not_negative (tz now : Z) (reset_ts : option Z)
    (text : reset_str) (hours_until : Z) :
  format_reset tz now reset_ts = Ok (text, hours_until) ->
  0 <= hours_until /\ (hours_until = 0 -> text = ResettingNow \/ text = ResetUnknown).
Proof.
  unfold format_reset.
  destruct reset_ts as [ts|]; [|intros [= <- <-]; split; [done|by right]].
  destruct (valid_reset (Some ts)); [|intros [= <- <-]; split; [done|by right]].
  destruct (fromtimestamp tz ts) as [[t|t]|]; [|done..]. cbn.
  destruct (Z.leb_spec (t - now) 0); intros [= <- <-].
  - split; [done|by left].
  - split; [lia|intros; lia].
Qed.

(** C1.  The gate and the display disagree on a negative [remaining]: on a
    cache whose application scope reports -1 remaining and whose user
    scope reports 5, [check_can_post_tweet] returns allowed = true ("Can
    post - -1 tweets remaining"), because it compares with [== 0], while
    [format_rate_limit_display] computes [can_post = False] on the same
    limits, with [> 0] on both scopes. *)
Theorem check_can_post_tweet_negative_remaining :
  let now := seconds Scenario.T0 in
  let limits := get_cached_rate_limits now Scenario.negative_remaining in
  (Scope.remaining <$> (limits ≫= Limits.app_24h) = Some (Some (-1)))
  /\ (Scope.remaining <$> (limits ≫= Limits.user_24h) = Some (Some 5))
  /\ check_can_post_tweet UTC now Scenario.negative_remaining = Ok (true, CanPost (-1))
  /\ exists d, format_rate_limit_display UTC now limits = Ok (DisplayLimits d)
               /\ Display.can_post d = false.
Proof. vm_compute. repeat split. by eexists. Qed.

(** C2, as the code has it.  When no cached limits are available, the
    admission check returns allowed = true with the message that the
    status is unknown, whatever the action log holds: it does not read the
    log.  The estimate derived from the log is that of
    [get_tweet_count_24h] alone, which on a well-formed log with 17
    entries of the last 24 hours reports remaining = 0, from the source
    "local_log". *)
Theorem check_can_post_tweet_ignores_log (tz now : Z) (w : world) :
  get_cached_rate_limits now (limits w) = None ->
  Forall well_formed (_load_tweet_log (counter w)) ->
  length (since (now - hours 24) (_load_tweet_log (counter w))) = 17%nat ->
  get_24h_rate_limits_from_api now (limits w) = None
  /\ check_can_post_tweet tz now (limits w) = Ok (true, StatusUnknown)
  /\ Count.count (get_tweet_count_24h now (counter w)).1 = 17
  /\ Count.remaining (get_tweet_count_24h now (counter w)).1 = 0
  /\ Count.source (get_tweet_count_24h now (counter w)).1 = "local_log"%string.
Proof.
  intros Hcache Hwf Hlen.
  destruct (check_without_limits tz _ _ Hcache) as [Hlive Hcheck].
  destruct (count_well_formed now _ Hwf) as (Hcount & Hrem & Hsrc & _).
  rewrite Hlen in Hcount.
  rewrite Hrem, Hcount. done.
Qed.

Lemma check_can_post_tweet_ignores_log_witness :
  let now := seconds Scenario.T0 in
  let w := Scenario.full_log in
  get_cached_rate_limits now (limits w) = None
  /\ Forall well_formed (_load_tweet_log (counter w))
  /\ length (since (now - hours 24) (_load_tweet_log (counter w))) = 17%nat
  /\ get_24h_rate_limits_from_api now (limits w) = None
  /\ check_can_post_tweet UTC now (limits w) = Ok (true, StatusUnknown)
  /\ Count.count (get_tweet_count_24h now (counter w)).1 = 17
  /\ Count.remaining (get_tweet_count_24h now (counter w)).1 = 0
  /\ Count.source (get_tweet_count_24h now (counter w)).1 = "local_log"%string.
Proof.
  intros now w.
  assert (Hwf : Forall well_formed (_load_tweet_log (counter w))).
  { well_formed_log. }
  assert (Hlen : length (since (now - hours 24) (_load_tweet_log (counter w))) = 17%nat).
  { vm_compute. reflexivity. }
  split; [reflexivity|]. split; [exact Hwf|]. split; [exact Hlen|].
  exact (check_can_post_tweet_ignores_log UTC now w eq_refl Hwf Hlen).
Defined.

(** C2 fails as the spec states it: with 17 well-formed entries of the
    last hour in the action log and no cache file at all, the admission
    check does not deny. *)
Lemma full_log_is_not_denied :
  let now := seconds Scenario.T0 in
  let w := Scenario.full_log in
  get_24h_rate_limits_from_api now (limits w) = None
  /\ get_cached_rate_limits now (limits w) = None
  /\ Forall well_formed (_load_tweet_log (counter w))
  /\ length (since (now - hours 24) (_load_tweet_log (counter w))) = 17%nat
  /\ ~ exists m, check_can_post_tweet UTC now (limits w) = Ok (false, m).
Proof.
  intros now w. split; [reflexivity|]. split; [reflexivity|].
  split; [well_formed_log|].
  split; [vm_compute; reflexivity|].
  intros [m Hm]. vm_compute in Hm. discriminate Hm.
Qed.

(** C3.  A snapshot whose reset time has passed still denies: at [T0], the
    cache captured three hours earlier with both scopes exhausted and a
    reset time two hours before [T0] is returned by
    [get_cached_rate_limits], and [check_can_post_tweet] denies on it.
    [get_latest_rate_limit] of [tweet_counter] returns no data for a
    snapshot of the same numbers. *)
Theorem check_can_post_tweet_denies_after_reset :
  let now := seconds Scenario.T0 in
  let reset_at := seconds (Scenario.T0 - 7200) in
  reset_at <= now
  /\ get_cached_rate_limits now Scenario.after_reset
     = match CACHE_FILE Scenario.after_reset with Contents d => Some d | _ => None end
  /\ check_can_post_tweet UTC now Scenario.after_reset
     = Ok (false, LimitExhausted APP (reset_at - now) reset_at)
  /\ get_latest_rate_limit now
       (Scenario.latest (now - hours 3) 0 (Scenario.T0 - 7200)) = None.
Proof. vm_compute. repeat split. discriminate. Qed.

(** C5.  With no data at all (an action log that is absent or empty and no
    cache file), the admission check returns allowed = true with the
    message "Rate limit status unknown - proceed with caution". *)
Theorem check_can_post_tweet_no_data (tz now : Z) (w : world) :
  _load_tweet_log (counter w) = [] ->
  RATE_LIMIT_CACHE_FILE (counter w) = NoFile ->
  CACHE_FILE (limits w) = NoFile ->
  check_can_post_tweet tz now (limits w) = Ok (true, StatusUnknown).
Proof.
  intros _ _ Hcache.
  apply check_without_limits, get_cached_rate_limits_no_file. by left.
Qed.

Lemma check_can_post_tweet_no_data_witness :
  _load_tweet_log (counter Scenario.fresh) = []
  /\ RATE_LIMIT_CACHE_FILE (counter Scenario.fresh) = NoFile
  /\ CACHE_FILE (limits Scenario.fresh) = NoFile
  /\ check_can_post_tweet UTC (seconds Scenario.T0) (limits Scenario.fresh)
     = Ok (true, StatusUnknown).
Proof.
  do 3 (split; [reflexivity|]).
  exact (check_can_post_tweet_no_data UTC (seconds Scenario.T0) Scenario.fresh
           eq_refl eq_refl eq_refl).
Defined.

(** C6.  The admission check raises to its caller: on the cache that
    [count_tweets_last_24h] writes, which has no [app_24h], and on a cache
    of limits whose exhausted application scope has no [reset], the
    lookup [app['reset']] raises [KeyError] and nothing catches it. *)
Theorem check_can_post_tweet_raises :
  let now := seconds Scenario.T0 in
  CACHE_FILE (_save_cache (tweet_count_cache (now - hours 1) 3 42) Scenario.no_cache)
    = CACHE_FILE Scenario.count_cache
  /\ check_can_post_tweet UTC now Scenario.count_cache = Raise (KeyError "reset")
  /\ check_can_post_tweet UTC now Scenario.no_reset = Raise (KeyError "reset").
Proof. vm_compute. done. Qed.

(** C7.  A denial reports a negative duration: at [T0], on a cache whose
    user scope is exhausted and was to reset half an hour earlier, the
    message of [check_can_post_tweet] names the USER scope and carries
    minus half an hour as the time until the reset;
    [format_rate_limit_display] on the same limits reports 0 hours and
    "Resetting now". *)
Theorem check_can_post_tweet_negative_hours :
  let now := seconds Scenario.T0 in
  let limits := get_cached_rate_limits now Scenario.user_exhausted in
  check_can_post_tweet UTC now Scenario.user_exhausted
    = Ok (false, LimitExhausted USER (- seconds 1800) (seconds (Scenario.T0 - 1800)))
  /\ - seconds 1800 < 0
  /\ exists d, format_rate_limit_display UTC now limits = Ok (DisplayLimits d)
               /\ ScopeDisplay.hours_until_reset (Display.user_24h d) = 0
               /\ ScopeDisplay.reset_time (Display.user_24h d) = ResettingNow.
Proof. vm_compute. repeat split. by eexists. Qed.

(** *** Runs of the gate *)

(** A cache with quota left on both scopes: the lesser of the two is
    announced. *)
Example can_post_with_quota :
  check_can_post_tweet UTC (seconds Scenario.T0)
    (Scenario.error_cache (seconds Scenario.T0 - hours 1)
       (Scenario.scope 17 4 (Scenario.T0 + 3600))
       (Scenario.scope 25 9 (Scenario.T0 + 3600)))
  = Ok (true, CanPost 4).
Proof. reflexivity. Qed.

(** An exhausted application scope that resets in three hours. *)
Example denied_until_reset :
  check_can_post_tweet UTC (seconds Scenario.T0)
    (Scenario.error_cache (seconds Scenario.T0 - hours 1)
       (Scenario.scope 17 0 (Scenario.T0 + 3 * 3600))
       (Scenario.scope 17 0 (Scenario.T0 + 3 * 3600)))
  = Ok (false, LimitExhausted APP (hours 3) (seconds (Scenario.T0 + 3 * 3600))).
Proof. reflexivity. Qed.

(** The limits read from the headers of a rejection, once cached, deny
    under the name of the application scope. *)
Example denied_after_rejection :
  (lim ← limits_from_error_headers (seconds Scenario.T0) Scenario.headers_exhausted;
   check_can_post_tweet UTC (seconds Scenario.T0 + seconds 60)
     (_save_cache lim Scenario.no_cache))
  = Ok (false, LimitExhausted APP (hours 1 - seconds 60)
                 (seconds (Scenario.T0 + 3600))).
Proof. vm_compute. reflexivity. Qed.

(** A cache of more than 24 hours is no data. *)
Example old_cache_is_unknown :
  check_can_post_tweet UTC (seconds Scenario.T0 + hours 25)
    (Scenario.error_cache (seconds Scenario.T0)
       (Scenario.scope 17 0 (Scenario.T0 + 3600))
       (Scenario.scope 17 0 (Scenario.T0 + 3600)))
  = Ok (true, StatusUnknown).
Proof. reflexivity. Qed.

(** Seventeen tweets logged through [log_tweet_posted] fill the quota of
    the local count. *)
Example seventeen_logged :
  let fs := Nat.iter 17 (log_tweet_posted (seconds Scenario.T0) "1724"
                           "Game of the night" None) Scenario.no_files in
  let result := (get_tweet_count_24h (seconds Scenario.T0 + hours 2) fs).1 in
  Count.count result = 17
  /\ Count.remaining result = 0
  /\ Count.oldest_tweet_age_hours result = Some (hours 2).
Proof. vm_compute. done. Qed.

End admission.

(** ** Staleness of the cached snapshots, loader by loader *)

Section staleness.

(** An exhausted snapshot whose reset time no [datetime] can hold is no
    data. *)
Lemma exhausted_out_of_range (now r : Z) (fs : TweetCounter.files) (data : Cache.t) :
  RATE_LIMIT_CACHE_FILE fs = Contents data ->
  Cache.remaining data = Some 0 ->
  Cache.reset data = Some r ->
  r <> 0 ->
  representable r = false ->
  get_latest_rate_limit now fs = None.
Proof.
  intros Hfile Hrem Hreset Hr Hrep. unfold get_latest_rate_limit.
  rewrite Hfile. cbn. rewrite Hrem, Hreset. cbn.
  rewrite bool_decide_true by done.
  rewrite bool_decide_true by done. cbn.
  unfold fromtimestamp_utc. by rewrite Hrep.
Qed.

(** C4, as the code has it.  The two loaders of cached snapshots age them
    differently.  [get_latest_rate_limit] of [tweet_counter] is
    asymmetric: a snapshot with [remaining = 0] and a reset time is
    returned exactly while the clock is before that reset time, whatever
    its timestamp and its age; a snapshot with another [remaining] is
    returned exactly while its timestamp is less than one hour back.
    [get_cached_rate_limits] of [twitter_rate_limits], the loader of the
    admission check, has one window of 24 hours instead: a snapshot with
    quota remaining on both scopes is returned exactly while its
    timestamp is less than 24 hours back, and no snapshot of 24 hours or
    more is returned, exhausted or not. *)
Theorem cached_snapshot_staleness (now : Z)
    (fs : TweetCounter.files) (data : Cache.t)
    (cache : TwitterRateLimits.files) (limits : Limits.t) :
  RATE_LIMIT_CACHE_FILE fs = Contents data ->
  CACHE_FILE cache = Contents limits ->
  (forall r,
     Cache.remaining data = Some 0 -> Cache.reset data = Some r -> r <> 0 ->
     get_latest_rate_limit now fs
       = (if representable r && (now <? seconds r) then Some data else None))
  /\ (forall n t offset,
        Cache.remaining data = Some n -> n <> 0 ->
        Cache.timestamp data = Some (IsoAware t offset) ->
        valid_offset offset = true ->
        get_latest_rate_limit now fs
          = (if now - t <? seconds 3600 then Some data else None))
  /\ (forall t,
        Limits.timestamp limits = Some (IsoNaive t) ->
        0 < remaining_of (Limits.app_24h limits) ->
        0 < remaining_of (Limits.user_24h limits) ->
        get_cached_rate_limits now cache
          = (if now - t <? hours 24 then Some limits else None))
  /\ (forall t,
        Limits.timestamp limits = Some (IsoNaive t) ->
        hours 24 <= now - t ->
        get_cached_rate_limits now cache = None).
Proof.
  intros Hfile Hcache. split; [|split; [|split]].
  - intros r Hrem Hreset Hr. destruct (representable r) eqn:Hrep; cbn.
    + rewrite (exhausted_until_reset now r fs data) by done. by destruct (now <? seconds r).
    + by rewrite (exhausted_out_of_range now r fs data).
  - intros n t offset Hrem Hn Hts Hv.
    apply (fresh_for_one_hour now t offset); [done| |done..].
    left. rewrite Hrem. by intros [= ->].
  - intros t Hts _ _. by apply get_cached_rate_limits_age.
  - intros t Hts Hage.
    rewrite (get_cached_rate_limits_age now t cache limits) by done.
    by rewrite (proj2 (Z.ltb_ge _ _) Hage).
Qed.

Lemma cached_snapshot_staleness_witness :
  let now := seconds Scenario.T0 in
  let fs := Scenario.latest (now - hours 30) 0 (Scenario.T0 + 3600) in
  let cache := Scenario.error_cache (now - hours 2)
                 (Scenario.scope 17 4 (Scenario.T0 + 3600))
                 (Scenario.scope 25 9 (Scenario.T0 + 3600)) in
  exists data limits,
    RATE_LIMIT_CACHE_FILE fs = Contents data
    /\ CACHE_FILE cache = Contents limits
    /\ Cache.remaining data = Some 0
    /\ Cache.reset data = Some (Scenario.T0 + 3600)
    /\ get_latest_rate_limit now fs = Some data
    /\ Limits.timestamp limits = Some (IsoNaive (now - hours 2))
    /\ 0 < remaining_of (Limits.app_24h limits)
    /\ 0 < remaining_of (Limits.user_24h limits)
    /\ get_cached_rate_limits now cache = Some limits.
Proof.
  intros now fs cache. eexists _, _.
  split; [reflexivity|]. split; [reflexivity|].
  destruct (cached_snapshot_staleness now fs _ cache _ eq_refl eq_refl)
    as (Hexhausted & _ & Hquota & _).
  split; [reflexivity|]. split; [reflexivity|].
  split; [exact (Hexhausted (Scenario.T0 + 3600) eq_refl eq_refl ltac:(discriminate))|].
  split; [reflexivity|]. split; [reflexivity|]. split; [reflexivity|].
  exact (Hquota (now - hours 2) eq_refl eq_refl eq_refl).
Defined.

(** C4 fails as the spec states it for the loader of the admission check.
    At [T0], a snapshot captured two hours earlier with 4 and 9 tweets
    remaining is past the window of one hour and is not absent:
    [get_cached_rate_limits] returns it and [check_can_post_tweet] allows
    on it.  A snapshot captured thirty hours earlier with nothing
    remaining and a reset time six hours ahead is not kept until that
    reset: [get_cached_rate_limits] returns nothing and the check reports
    an unknown status. *)
Lemma cached_limits_have_one_window :
  let now := seconds Scenario.T0 in
  let recent := Scenario.error_cache (now - hours 2)
                  (Scenario.scope 17 4 (Scenario.T0 + 3600))
                  (Scenario.scope 25 9 (Scenario.T0 + 3600)) in
  let spent := Scenario.error_cache (now - hours 30)
                 (Scenario.scope 17 0 (Scenario.T0 + 6 * 3600))
                 (Scenario.scope 17 0 (Scenario.T0 + 6 * 3600)) in
  seconds 3600 < now - (now - hours 2)
  /\ (exists limits, CACHE_FILE recent = Contents limits
                     /\ get_cached_rate_limits now recent = Some limits)
  /\ check_can_post_tweet UTC now recent = Ok (true, CanPost 4)
  /\ now < seconds (Scenario.T0 + 6 * 3600)
  /\ get_cached_rate_limits now spent = None
  /\ check_can_post_tweet UTC now spent = Ok (true, StatusUnknown).
Proof.
  intros now recent spent.
  split; [reflexivity|]. split; [by eexists|].
  split; [reflexivity|]. split; [reflexivity|]. split; reflexivity.
Qed.

(** *** Runs of the two loaders *)

(** [get_latest_rate_limit] on an exhausted snapshot thirty hours old:
    returned one second before its reset, gone at the reset. *)
Example exhausted_until_its_reset :
  let fs := Scenario.latest (seconds Scenario.T0 - hours 30) 0 Scenario.T0 in
  get_latest_rate_limit (seconds Scenario.T0 - seconds 1) fs
    = match RATE_LIMIT_CACHE_FILE fs with Contents d => Some d | _ => None end
  /\ get_latest_rate_limit (seconds Scenario.T0) fs = None.
Proof. split; reflexivity. Qed.

(** [get_latest_rate_limit] on a snapshot with 3 remaining: returned one
    microsecond before it is an hour old, gone at one hour. *)
Example fresh_until_one_hour :
  let fs := Scenario.latest (seconds Scenario.T0) 3 (Scenario.T0 + 7200) in
  get_latest_rate_limit (seconds Scenario.T0 + hours 1 - 1) fs
    = match RATE_LIMIT_CACHE_FILE fs with Contents d => Some d | _ => None end
  /\ get_latest_rate_limit (seconds Scenario.T0 + hours 1) fs = None.
Proof. split; reflexivity. Qed.

End staleness.

(** * Further properties *)

(** ** Pruning the action log *)

Section pruning.

Lemma newer_than_well_formed (cutoff : Z) (tweet_log : list Entry.t) :
  Forall aware_timestamp tweet_log ->
  newer_than cutoff tweet_log = Ok (since cutoff tweet_log).
Proof.
  unfold since.
  induction 1 as [|tweet rest (t & offset & Ht & Hv) _ IH]; [done|].
  cbn [newer_than]. rewrite Ht. cbn. rewrite Hv. cbn. rewrite IH. cbn.
  assert (Hp : posted_instant tweet = t) by (unfold posted_instant; by rewrite Ht).
  destruct (Z.leb_spec cutoff t).
  - by rewrite decide_True by (by rewrite Hp).
  - by rewrite decide_False by (rewrite Hp; lia).
Qed.

(** What the comprehension returns it returns again, and it is no longer
    than what it was given. *)
Lemma newer_than_Ok (cutoff : Z) (tweet_log filtered : list Entry.t) :
  newer_than cutoff tweet_log = Ok filtered ->
  newer_than cutoff filtered = Ok filtered
  /\ (length filtered <= length tweet_log)%nat
  /\ Forall aware_timestamp tweet_log.
Proof.
  revert filtered. induction tweet_log as [|tweet rest IH]; intros filtered.
  { intros [= <-]. done. }
  cbn [newer_than].
  destruct (Entry.posted_at tweet) as [[|t|t offset]|] eqn:Ht; [done..| |done].
  cbn. destruct (valid_offset offset) eqn:Hv; [|done].
  cbn. destruct (newer_than cutoff rest) as [f|]; [|done].
  destruct (IH f eq_refl) as (Hidem & Hlen & Haware).
  assert (aware_timestamp tweet) by (by exists t, offset).
  cbn. destruct (cutoff <=? t) eqn:Hle; intros [= <-].
  - cbn [newer_than]. rewrite Ht. cbn. rewrite Hv. cbn. rewrite Hidem. cbn. rewrite Hle.
    repeat split; [cbn; lia|by constructor].
  - repeat split; [done|cbn; lia|by constructor].
Qed.

Lemma filter_all {A : Type} (P : A -> Prop) `{!forall a, Decision (P a)} (l : list A) :
  (length l <= length (filter P l))%nat -> filter P l = l.
Proof.
  induction l as [|x l IH]; [done|].
  rewrite filter_cons. destruct (decide (P x)); cbn; intros Hlen.
  - f_equal. apply IH. lia.
  - pose proof (length_filter P l). lia.
Qed.

Lemma load_after_save (tweet_log : list Entry.t) (fs : TweetCounter.files) :
  TweetCounter.disk_writable fs = true ->
  _load_tweet_log (_save_tweet_log tweet_log fs) = tweet_log
  /\ RATE_LIMIT_CACHE_FILE (_save_tweet_log tweet_log fs) = RATE_LIMIT_CACHE_FILE fs
  /\ TweetCounter.disk_writable (_save_tweet_log tweet_log fs) = true.
Proof. unfold _save_tweet_log, _load_tweet_log. by intros ->. Qed.

Lemma save_read_only (tweet_log : list Entry.t) (fs : TweetCounter.files) :
  TweetCounter.disk_writable fs = false -> _save_tweet_log tweet_log fs = fs.
Proof. unfold _save_tweet_log. by intros ->. Qed.

(** Pruning, with its [try] taken apart. *)
Lemma cleanup_unfold (now : Z) (fs : TweetCounter.files) :
  _cleanup_old_tweets now fs =
    match newer_than (now - hours 48) (_load_tweet_log fs) with
    | Ok filtered =>
        if (length filtered <? length (_load_tweet_log fs))%nat
        then _save_tweet_log filtered fs else fs
    | Raise _ => fs
    end.
Proof.
  unfold _cleanup_old_tweets.
  destruct (newer_than _ _) as [filtered|]; [|reflexivity].
  unfold try_except, mbind, result_bind, mret, result_ret.
  by destruct (_ <? _)%nat.
Qed.

(** The log after pruning, whatever the log was. *)
Lemma cleanup_log (now : Z) (fs : TweetCounter.files) :
  _load_tweet_log (_cleanup_old_tweets now fs) =
    match newer_than (now - hours 48) (_load_tweet_log fs) with
    | Ok filtered => if TweetCounter.disk_writable fs then filtered else _load_tweet_log fs
    | Raise _ => _load_tweet_log fs
    end.
Proof.
  rewrite cleanup_unfold.
  destruct (newer_than _ _) as [filtered|] eqn:Hn; [|done].
  destruct (newer_than_Ok _ _ _ Hn) as (_ & Hlen & Haware).
  destruct (Nat.ltb_spec (length filtered) (length (_load_tweet_log fs))) as [Hlt|Hge].
  - destruct (TweetCounter.disk_writable fs) eqn:Hw.
    + by apply load_after_save.
    + by rewrite save_read_only.
  - rewrite (newer_than_well_formed _ _ Haware) in Hn. injection Hn as <-.
    unfold since in *. rewrite filter_all by lia.
    by destruct (TweetCounter.disk_writable fs).
Qed.

Lemma cleanup_twice (now : Z) (fs : TweetCounter.files) :
  _cleanup_old_tweets now (_cleanup_old_tweets now fs) = _cleanup_old_tweets now fs.
Proof.
  rewrite (cleanup_unfold now fs).
  destruct (newer_than _ (_load_tweet_log fs)) as [filtered|] eqn:Hn.
  2: { by rewrite cleanup_unfold, Hn. }
  destruct (newer_than_Ok _ _ _ Hn) as (Hidem & Hlen & _).
  destruct (Nat.ltb_spec (length filtered) (length (_load_tweet_log fs))) as [Hlt|Hge].
  - destruct (TweetCounter.disk_writable fs) eqn:Hw.
    + destruct (load_after_save filtered fs Hw) as (Hload & _ & _).
      by rewrite cleanup_unfold, Hload, Hidem, Nat.ltb_irrefl.
    + rewrite save_read_only by done.
      rewrite cleanup_unfold, Hn, (proj2 (Nat.ltb_lt _ _) Hlt).
      by rewrite save_read_only.
  - by rewrite cleanup_unfold, Hn, (proj2 (Nat.ltb_ge _ _) Hge).
Qed.

(** X1.  Pruning is idempotent: [_cleanup_old_tweets] run a second time at
    the same instant leaves the files as the first run left them, on
    every log and whether the disk takes writes or not. *)
Theorem cleanup_idempotent (now : Z) (fs : TweetCounter.files) :
  _cleanup_old_tweets now (_cleanup_old_tweets now fs) = _cleanup_old_tweets now fs.
Proof. apply cleanup_twice. Qed.

(** X2.  On a log whose timestamps all carry a UTC offset and a disk that
    takes writes, pruning leaves exactly the entries posted at or after
    [now - 48h], in the order they had, and does not touch the
    rate-limit cache. *)
Theorem cleanup_keeps_48h (now : Z) (fs : TweetCounter.files) :
  Forall aware_timestamp (_load_tweet_log fs) ->
  TweetCounter.disk_writable fs = true ->
  _load_tweet_log (_cleanup_old_tweets now fs)
    = since (now - hours 48) (_load_tweet_log fs)
  /\ RATE_LIMIT_CACHE_FILE (_cleanup_old_tweets now fs) = RATE_LIMIT_CACHE_FILE fs.
Proof.
  intros Haware Hw. split.
  - by rewrite cleanup_log, (newer_than_well_formed _ _ Haware), Hw.
  - rewrite cleanup_unfold.
    destruct (newer_than _ _); [|done].
    destruct (_ <? _)%nat; [|done]. by apply load_after_save.
Qed.

Lemma cleanup_keeps_48h_witness :
  Forall aware_timestamp (_load_tweet_log Scenario.three_tweets)
  /\ TweetCounter.disk_writable Scenario.three_tweets = true
  /\ _load_tweet_log (_cleanup_old_tweets (seconds Scenario.T0) Scenario.three_tweets)
     = since (seconds Scenario.T0 - hours 48) (_load_tweet_log Scenario.three_tweets)
  /\ RATE_LIMIT_CACHE_FILE (_cleanup_old_tweets (seconds Scenario.T0) Scenario.three_tweets)
     = RATE_LIMIT_CACHE_FILE Scenario.three_tweets.
Proof.
  assert (Ha : Forall aware_timestamp (_load_tweet_log Scenario.three_tweets)).
  { well_formed_log. }
  split; [exact Ha|]. split; [reflexivity|].
  exact (cleanup_keeps_48h (seconds Scenario.T0) Scenario.three_tweets Ha eq_refl).
Defined.

(** X3.  One entry whose timestamp is missing, malformed or without UTC
    offset keeps the whole log from being pruned: the files stay as they
    are, however old the other entries. *)
Theorem cleanup_blocked (now : Z) (fs : TweetCounter.files) :
  Exists (fun tweet => ~ aware_timestamp tweet) (_load_tweet_log fs) ->
  _cleanup_old_tweets now fs = fs.
Proof.
  intros Hex. rewrite cleanup_unfold.
  destruct (newer_than _ _) as [filtered|] eqn:Hn; [|done].
  destruct (newer_than_Ok _ _ _ Hn) as (_ & _ & Haware).
  apply Exists_exists in Hex as (tweet & Hin & Hno).
  rewrite Forall_forall in Haware. by destruct Hno; apply Haware.
Qed.

Lemma cleanup_blocked_witness :
  Exists (fun tweet => ~ aware_timestamp tweet) (_load_tweet_log Scenario.damaged_log)
  /\ _cleanup_old_tweets (seconds Scenario.T0 + hours 72) Scenario.damaged_log
     = Scenario.damaged_log.
Proof.
  assert (Hex : Exists (fun tweet => ~ aware_timestamp tweet)
                  (_load_tweet_log Scenario.damaged_log)).
  { apply Exists_cons_tl, Exists_cons_hd. intros (t & offset & Ht & _). discriminate Ht. }
  split; [exact Hex|].
  exact (cleanup_blocked (seconds Scenario.T0 + hours 72) Scenario.damaged_log Hex).
Defined.

End pruning.

(** ** Counting: [get_tweet_count_24h] on every log *)

Section counting.

Lemma not_offending (cutoff : Z) (tweet : Entry.t) :
  ~ offending cutoff tweet ->
  exists t offset,
    Entry.posted_at tweet = Some (IsoAware t offset)
    /\ valid_offset offset = true
    /\ (cutoff <= t -> is_Some (Entry.tweet_id tweet)).
Proof.
  intros Hno.
  destruct (Entry.posted_at tweet) as [[|t|t offset]|] eqn:Ht;
    try (destruct Hno; left; intros (t' & o' & Ht' & Hv'); congruence).
  destruct (valid_offset offset) eqn:Hv;
    [|destruct Hno; left; intros (t' & o' & Ht' & Hv'); congruence].
  exists t, offset. split; [done|]. split; [done|]. intros Hle.
  destruct (Entry.tweet_id tweet) eqn:Hid; [done|].
  destruct Hno. right. unfold posted_instant. by rewrite Ht.
Qed.

Lemma tweets_since_Ok (now cutoff : Z) (tweet_log : list Entry.t) :
  Forall (fun tweet => ~ offending cutoff tweet) tweet_log ->
  tweets_since now cutoff tweet_log = Ok (tweet_of now <$> since cutoff tweet_log).
Proof.
  unfold since.
  induction 1 as [|tweet rest Hno _ IH]; [done|].
  destruct (not_offending _ _ Hno) as (t & offset & Ht & Hv & Hid).
  cbn [tweets_since]. rewrite Ht. cbn. rewrite Hv. cbn. rewrite IH.
  assert (Hp : posted_instant tweet = t) by (unfold posted_instant; by rewrite Ht).
  destruct (Z.leb_spec cutoff t) as [Hle|Hgt].
  - destruct (Hid Hle) as [id Hid']. rewrite Hid'. cbn.
    rewrite decide_True by (by rewrite Hp). cbn.
    unfold tweet_of, get. by rewrite Hp, Hid', Ht.
  - rewrite decide_False by (rewrite Hp; lia). done.
Qed.

Lemma tweets_since_Raise (now cutoff : Z) (tweet_log : list Entry.t) :
  Exists (offending cutoff) tweet_log ->
  exists e, tweets_since now cutoff tweet_log = Raise e.
Proof.
  induction 1 as [tweet rest Hoff|tweet rest _ [e IH]]; cbn [tweets_since].
  - destruct (Entry.posted_at tweet) as [[|t|t offset]|] eqn:Ht; cbn; eauto.
    destruct (valid_offset offset) eqn:Hv; cbn; eauto.
    destruct Hoff as [Hna|[Hle Hid]]; [destruct Hna; by exists t, offset|].
    unfold posted_instant in Hle. rewrite Ht in Hle. cbn in Hle.
    rewrite (proj2 (Z.leb_le _ _) Hle), Hid. cbn. eauto.
  - apply bind_raises; intros s.
    apply bind_raises; intros posted.
    apply bind_raises; intros [].
    + do 2 (apply bind_raises; intros ?).
      rewrite IH. by exists e.
    + by exists e.
Qed.

Lemma tweets_since_Raise_inv (now cutoff : Z) (tweet_log : list Entry.t) (e : exn) :
  tweets_since now cutoff tweet_log = Raise e ->
  Exists (offending cutoff) tweet_log.
Proof.
  induction tweet_log as [|tweet rest IH]; [done|].
  cbn [tweets_since].
  destruct (Entry.posted_at tweet) as [[|t|t offset]|] eqn:Ht; cbn;
    try (intros _; apply Exists_cons_hd; left; intros (t' & o' & Ht' & Hv');
         congruence).
  destruct (valid_offset offset) eqn:Hv; cbn;
    [|intros _; apply Exists_cons_hd; left; intros (t' & o' & Ht' & Hv');
      congruence].
  assert (Hp : posted_instant tweet = t) by (unfold posted_instant; by rewrite Ht).
  destruct (Z.leb_spec cutoff t) as [Hle|Hgt].
  - destruct (Entry.tweet_id tweet) as [id|] eqn:Hid; cbn.
    + destruct (tweets_since now cutoff rest) as [l|e'] eqn:Hr; cbn; [done|].
      intros [= <-]. apply Exists_cons_tl. by apply IH.
    + intros _. apply Exists_cons_hd. right. by rewrite Hp.
  - intros He. apply Exists_cons_tl. by apply IH.
Qed.

Lemma well_formed_not_offending (cutoff : Z) (tweet_log : list Entry.t) :
  Forall well_formed tweet_log ->
  Forall (fun tweet => ~ offending cutoff tweet) tweet_log.
Proof.
  intros Hwf. eapply Forall_impl; [exact Hwf|].
  intros tweet [[id Hid] Haware] [Hna|[_ Hnone]]; [by apply Hna|].
  congruence.
Qed.

(** The call on a log the loop gets through. *)
Lemma get_tweet_count_24h_Ok (now : Z) (fs : TweetCounter.files) :
  Forall (fun tweet => ~ offending (now - hours 24) tweet) (_load_tweet_log fs) ->
  get_tweet_count_24h now fs
    = (counted (tweet_of now <$> since (now - hours 24) (_load_tweet_log fs))
         (get_latest_rate_limit now (_cleanup_old_tweets now fs)),
       _cleanup_old_tweets now fs).
Proof.
  intros Hno. unfold get_tweet_count_24h.
  by rewrite (tweets_since_Ok _ _ _ Hno).
Qed.

(** X4.  [get_tweet_count_24h] reports an error exactly when the log holds
    an entry whose timestamp is missing, malformed or without UTC offset,
    or an entry of the last 24 hours without [tweet_id]; an older entry
    may lack its [tweet_id].  Without error, [count] is the number of
    entries of the last 24 hours. *)
Theorem get_tweet_count_24h_error_iff (now : Z) (fs : TweetCounter.files) :
  let result := (get_tweet_count_24h now fs).1 in
  (is_Some (Count.error result)
     <-> Exists (offending (now - hours 24)) (_load_tweet_log fs))
  /\ (Count.error result = None ->
      Count.count result
        = Z.of_nat (length (since (now - hours 24) (_load_tweet_log fs)))).
Proof.
  cbn zeta. unfold get_tweet_count_24h.
  destruct (tweets_since _ _ _) as [tweets_24h|e] eqn:Hts; cbn.
  - assert (Hno : ~ Exists (offending (now - hours 24)) (_load_tweet_log fs)).
    { intros Hex. destruct (tweets_since_Raise now _ _ Hex) as [e He]. congruence. }
    split; [split; [by intros [? [=]]|done]|]. intros _.
    apply Forall_Exists_neg in Hno.
    rewrite (tweets_since_Ok _ _ _ Hno) in Hts. injection Hts as <-.
    by rewrite length_fmap.
  - split; [|done]. split; [|by eexists].
    intros _. by eapply tweets_since_Raise_inv.
Qed.

(** X5.  Whatever the files hold, the dictionary [get_tweet_count_24h]
    returns is consistent: [limit] is 17, [count] is the number of
    [tweets] listed, [remaining] is [max(0, 17 - count)] and so lies
    between 0 and [limit]. *)
Theorem get_tweet_count_24h_consistent (now : Z) (fs : TweetCounter.files) :
  let result := (get_tweet_count_24h now fs).1 in
  Count.limit result = 17
  /\ Count.count result = Z.of_nat (length (Count.tweets result))
  /\ Count.remaining result = Z.max 0 (17 - Count.count result)
  /\ 0 <= Count.remaining result <= Count.limit result
  /\ (Count.remaining result = 0 <-> 17 <= Count.count result).
Proof.
  cbn zeta. unfold get_tweet_count_24h.
  destruct (tweets_since _ _ _) as [tweets_24h|e]; cbn.
  - rewrite (Permutation_length (sorted_reverse_perm posted_key tweets_24h)).
    unfold TweetCounter.FREE_TIER_24H_LIMIT. repeat split; lia.
  - unfold TweetCounter.FREE_TIER_24H_LIMIT. repeat split; lia.
Qed.

Lemma since_since (later earlier : Z) (tweet_log : list Entry.t) :
  earlier <= later ->
  since later (since earlier tweet_log) = since later tweet_log.
Proof.
  intros Hle. unfold since.
  induction tweet_log as [|tweet rest IH]; [done|].
  rewrite !(filter_cons _ tweet).
  destruct (decide (earlier <= posted_instant tweet));
    destruct (decide (later <= posted_instant tweet)); try lia.
  - rewrite filter_cons, decide_True by done. by rewrite IH.
  - rewrite filter_cons, decide_False by done. by rewrite IH.
  - done.
Qed.

Lemma well_formed_aware (tweet_log : list Entry.t) :
  Forall well_formed tweet_log -> Forall aware_timestamp tweet_log.
Proof. intros H. eapply Forall_impl; [exact H|]. by intros ? [_ ?]. Qed.

(** X6.  On a well-formed log, [get_tweet_count_24h] asked a second time
    at the same instant gives the answer and the files of the first time:
    the pruning it does on the way never changes what is counted. *)
Theorem get_tweet_count_24h_idempotent (now : Z) (fs : TweetCounter.files) :
  Forall well_formed (_load_tweet_log fs) ->
  get_tweet_count_24h now (get_tweet_count_24h now fs).2
    = get_tweet_count_24h now fs.
Proof.
  intros Hwf.
  pose proof (well_formed_aware _ Hwf) as Haware.
  rewrite (get_tweet_count_24h_Ok now fs) by by apply well_formed_not_offending.
  cbn [snd].
  assert (Hlog : _load_tweet_log (_cleanup_old_tweets now fs) = _load_tweet_log fs
                 \/ _load_tweet_log (_cleanup_old_tweets now fs)
                    = since (now - hours 48) (_load_tweet_log fs)).
  { rewrite cleanup_log, (newer_than_well_formed _ _ Haware).
    destruct (TweetCounter.disk_writable fs); auto. }
  assert (Hsince : since (now - hours 24) (_load_tweet_log (_cleanup_old_tweets now fs))
                   = since (now - hours 24) (_load_tweet_log fs)).
  { destruct Hlog as [-> | ->]; [done|].
    apply since_since. unfold hours, us_per_second. lia. }
  rewrite get_tweet_count_24h_Ok.
  - by rewrite Hsince, cleanup_twice.
  - apply well_formed_not_offending.
    destruct Hlog as [-> | ->]; [done|by apply since_Forall].
Qed.

Lemma get_tweet_count_24h_idempotent_witness :
  Forall well_formed (_load_tweet_log Scenario.three_tweets)
  /\ get_tweet_count_24h (seconds Scenario.T0)
       (get_tweet_count_24h (seconds Scenario.T0) Scenario.three_tweets).2
     = get_tweet_count_24h (seconds Scenario.T0) Scenario.three_tweets.
Proof.
  assert (Hwf : Forall well_formed (_load_tweet_log Scenario.three_tweets)).
  { well_formed_log. }
  split; [exact Hwf|].
  exact (get_tweet_count_24h_idempotent (seconds Scenario.T0) Scenario.three_tweets Hwf).
Defined.

Lemma load_after_log (now : Z) (tweet_id text_preview : string)
    (rate_limit_info : option (gmap string Z)) (fs : TweetCounter.files) :
  TweetCounter.disk_writable fs = true ->
  _load_tweet_log (log_tweet_posted now tweet_id text_preview rate_limit_info fs)
    = _load_tweet_log fs ++ [logged_entry now tweet_id text_preview rate_limit_info].
Proof.
  intros Hw. unfold log_tweet_posted.
  fold (logged_entry now tweet_id text_preview rate_limit_info).
  destruct (load_after_save
              (_load_tweet_log fs ++ [logged_entry now tweet_id text_preview rate_limit_info])
              fs Hw) as (Hload & _ & Hw').
  destruct rate_limit_info as [info|]; [|done].
  destruct (bool_decide (info = ∅)); [done|].
  destruct (bool_decide (is_Some (info !! "remaining"%string))); [|done].
  unfold _save_latest_rate_limit. rewrite Hw'. cbn.
  unfold _load_tweet_log in *. by cbn.
Qed.

(** X7.  Logging a tweet raises the count by one: on a well-formed log and
    a disk that takes writes, the count taken at [now] after
    [log_tweet_posted] at an instant [posted] of the last 24 hours is one
    more than the count taken at [now] before, and what remains is one
    less unless nothing remained. *)
Theorem log_tweet_posted_counts (now posted : Z) (tweet_id text_preview : string)
    (rate_limit_info : option (gmap string Z)) (fs : TweetCounter.files) :
  Forall well_formed (_load_tweet_log fs) ->
  TweetCounter.disk_writable fs = true ->
  now - hours 24 <= posted ->
  let before := (get_tweet_count_24h now fs).1 in
  let after := (get_tweet_count_24h now
                  (log_tweet_posted posted tweet_id text_preview rate_limit_info fs)).1 in
  Count.count after = Count.count before + 1
  /\ Count.remaining after = Z.max 0 (Count.remaining before - 1)
  /\ Count.error after = None.
Proof.
  intros Hwf Hw Hrecent. cbn zeta.
  assert (Hwf' : Forall well_formed
            (_load_tweet_log (log_tweet_posted posted tweet_id text_preview rate_limit_info fs))).
  { rewrite load_after_log by done. apply Forall_app. split; [done|].
    well_formed_log. }
  destruct (count_well_formed now _ Hwf) as (Hc & Hr & _ & _).
  destruct (count_well_formed now _ Hwf') as (Hc' & Hr' & _ & He').
  cbn zeta in *. rewrite load_after_log in Hc' by done.
  unfold since in Hc'. rewrite filter_app, length_app in Hc'.
  rewrite filter_cons_True in Hc' by done. cbn in Hc'.
  fold (since (now - hours 24) (_load_tweet_log fs)) in Hc'.
  repeat split; [lia|lia|done].
Qed.

Lemma log_tweet_posted_counts_witness :
  let now := seconds Scenario.T0 in
  let fs := Scenario.three_tweets in
  Forall well_formed (_load_tweet_log fs)
  /\ TweetCounter.disk_writable fs = true
  /\ now - hours 24 <= now
  /\ (let before := (get_tweet_count_24h now fs).1 in
      let after := (get_tweet_count_24h now
                      (log_tweet_posted now "1724" "Game of the night" None fs)).1 in
      Count.count after = Count.count before + 1
      /\ Count.remaining after = Z.max 0 (Count.remaining before - 1)
      /\ Count.error after = None).
Proof.
  intros now fs.
  assert (Hwf : Forall well_formed (_load_tweet_log fs)).
  { well_formed_log. }
  assert (Hle : now - hours 24 <= now) by (vm_compute; discriminate).
  split; [exact Hwf|]. split; [reflexivity|]. split; [exact Hle|].
  exact (log_tweet_posted_counts now now "1724" "Game of the night" None fs
           Hwf eq_refl Hle).
Defined.

End counting.

(** ** Order and age of the counted tweets *)

Section order.




Lemma filter_fmap_tweet_of (now : Z) (s : iso_string) (l : list Entry.t) :
  Forall well_formed l ->
  filter (fun tweet => Tweet.posted_at tweet = s) (tweet_of now <$> l)
  = tweet_of now <$> filter (fun tweet => Entry.posted_at tweet = Some s) l.
Proof.
  induction 1 as [|tweet l [_ (t & offset & Ht & _)] _ IH]; [done|].
  cbn [fmap list_fmap]. rewrite !filter_cons.
  change (Tweet.posted_at (tweet_of now tweet))
    with (default IsoMalformed (Entry.posted_at tweet)).
  rewrite Ht. cbn [default from_option].
  destruct (decide (IsoAware t offset = s)) as [->|Hne].
  - rewrite !decide_True by done. cbn. by rewrite IH.
  - rewrite decide_False by done.
    rewrite decide_False by (by intros [= ?]). by rewrite IH.
Qed.



(** The run behind the witness: the oldest of the five tweets is five
    hours old. *)
Example oldest_of_five :
  Count.oldest_tweet_age_hours
    (get_tweet_count_24h (seconds Scenario.T0) Scenario.same_instant).1
  = Some (hours 5).
Proof. vm_compute. reflexivity. Qed.

(** X9.  On a well-formed log, the tweets listed that carry one and the
    same timestamp come in the order the log has them: the sort of
    [get_tweet_count_24h] is stable. *)
Theorem tweets_of_one_timestamp_keep_log_order (now : Z) (s : iso_string)
    (fs : TweetCounter.files) :
  Forall well_formed (_load_tweet_log fs) ->
  filter (fun tweet => Tweet.posted_at tweet = s)
    (Count.tweets (get_tweet_count_24h now fs).1)
  = tweet_of now
      <$> filter (fun tweet => Entry.posted_at tweet = Some s)
            (since (now - hours 24) (_load_tweet_log fs)).
Proof.
  intros Hwf.
  rewrite get_tweet_count_24h_Ok by by apply well_formed_not_offending.
  cbn [fst counted Count.tweets].
  rewrite sorted_reverse_stable by (unfold posted_key; intros a b -> ->; done).
  apply filter_fmap_tweet_of. by apply since_Forall.
Qed.

Lemma tweets_of_one_timestamp_keep_log_order_witness :
  let now := seconds Scenario.T0 in
  let s := IsoAware (now - hours 2) 0 in
  Forall well_formed (_load_tweet_log Scenario.same_instant)
  /\ filter (fun tweet => Tweet.posted_at tweet = s)
       (Count.tweets (get_tweet_count_24h now Scenario.same_instant).1)
     = tweet_of now
         <$> filter (fun tweet => Entry.posted_at tweet = Some s)
               (since (now - hours 24) (_load_tweet_log Scenario.same_instant)).
Proof.
  intros now s.
  assert (Hwf : Forall well_formed (_load_tweet_log Scenario.same_instant)).
  { well_formed_log. }
  split; [exact Hwf|].
  exact (tweets_of_one_timestamp_keep_log_order now s Scenario.same_instant Hwf).
Defined.

(** The run behind the witness: of the five tweets, [b] and [d] were
    posted at the same instant, and [b], logged first, is listed first. *)
Example same_timestamp_order :
  Tweet.id <$> Count.tweets
                 (get_tweet_count_24h (seconds Scenario.T0) Scenario.same_instant).1
  = ["e"; "b"; "d"; "a"; "c"]%string.
Proof. vm_compute. reflexivity. Qed.

End order.

(** ** A disk that takes no writes *)

Section read_only.

(** X10.  When the data directory takes no writes, the recorders fail
    silently: [log_tweet_posted], [reset_tweet_count],
    [_cleanup_old_tweets] and [get_tweet_count_24h] leave the files as
    they are, so a tweet posted then is not counted afterwards. *)
Theorem read_only_disk_loses_writes (now : Z) (tweet_id text_preview : string)
    (rate_limit_info : option (gmap string Z)) (fs : TweetCounter.files) :
  TweetCounter.disk_writable fs = false ->
  log_tweet_posted now tweet_id text_preview rate_limit_info fs = fs
  /\ reset_tweet_count fs = fs
  /\ _cleanup_old_tweets now fs = fs
  /\ (get_tweet_count_24h now fs).2 = fs
  /\ get_tweet_count_24h now
       (log_tweet_posted now tweet_id text_preview rate_limit_info fs)
     = get_tweet_count_24h now fs.
Proof.
  intros Hw.
  assert (Hlog : log_tweet_posted now tweet_id text_preview rate_limit_info fs = fs).
  { unfold log_tweet_posted. rewrite save_read_only by done.
    destruct rate_limit_info as [info|]; [|done].
    destruct (bool_decide (info = ∅)); [done|].
    destruct (bool_decide _); [|done].
    by apply save_latest_rate_limit_read_only. }
  assert (Hclean : _cleanup_old_tweets now fs = fs).
  { rewrite cleanup_unfold. destruct (newer_than _ _); [|done].
    destruct (_ <? _)%nat; [|done]. by apply save_read_only. }
  split; [done|]. split; [by apply save_read_only|]. split; [done|].
  split; [|by rewrite Hlog].
  unfold get_tweet_count_24h. destruct (tweets_since _ _ _); [|done].
  cbn. done.
Qed.

Lemma read_only_disk_loses_writes_witness :
  let fs := {| TWEET_LOG_FILE := TWEET_LOG_FILE Scenario.three_tweets;
               RATE_LIMIT_CACHE_FILE := NoFile;
               TweetCounter.disk_writable := false |} in
  let now := seconds Scenario.T0 in
  TweetCounter.disk_writable fs = false
  /\ log_tweet_posted now "1724" "Game of the night" None fs = fs
  /\ reset_tweet_count fs = fs
  /\ _cleanup_old_tweets now fs = fs
  /\ (get_tweet_count_24h now fs).2 = fs
  /\ get_tweet_count_24h now (log_tweet_posted now "1724" "Game of the night" None fs)
     = get_tweet_count_24h now fs.
Proof.
  intros fs now. split; [reflexivity|].
  exact (read_only_disk_loses_writes now "1724" "Game of the night" None fs eq_refl).
Defined.

End read_only.

(** ** What [log_tweet_posted] records *)

Section recording.

Lemma cleanup_keeps_cache (now : Z) (fs : TweetCounter.files) :
  RATE_LIMIT_CACHE_FILE (_cleanup_old_tweets now fs) = RATE_LIMIT_CACHE_FILE fs.
Proof.
  rewrite cleanup_unfold. destruct (newer_than _ _); [|done].
  destruct (_ <? _)%nat; [|done].
  unfold _save_tweet_log. by destruct (TweetCounter.disk_writable fs).
Qed.

Lemma get_latest_rate_limit_ext (now : Z) (fs fs' : TweetCounter.files) :
  RATE_LIMIT_CACHE_FILE fs = RATE_LIMIT_CACHE_FILE fs' ->
  get_latest_rate_limit now fs = get_latest_rate_limit now fs'.
Proof. unfold get_latest_rate_limit. by intros ->. Qed.

(** The snapshot written for [info] at [saved], read back at [now]. *)
Lemma get_latest_of_saved (saved now : Z) (info : gmap string Z)
    (fs : TweetCounter.files) :
  RATE_LIMIT_CACHE_FILE fs = Contents (cache_of saved info) ->
  now - saved < seconds 3600 ->
  (forall r, info !! "remaining"%string = Some 0 ->
             info !! "reset"%string = Some r ->
             r <> 0 ->
             representable r = true /\ now < seconds r) ->
  get_latest_rate_limit now fs = Some (cache_of saved info).
Proof.
  intros Hfile Hage Hreset.
  destruct (decide (info !! "remaining"%string = Some 0)) as [Hrem|Hrem].
  - destruct (info !! "reset"%string) as [r|] eqn:Hr.
    + destruct (decide (r = 0)) as [->|Hnz].
      * rewrite (fresh_for_one_hour now saved 0 fs (cache_of saved info));
          [|done|right; cbn; by rewrite Hr|done|done].
        by rewrite (proj2 (Z.ltb_lt _ _) Hage).
      * destruct (Hreset r Hrem eq_refl Hnz) as [Hrep Hlt].
        rewrite (exhausted_until_reset now r fs (cache_of saved info)) by done.
        by rewrite (proj2 (Z.ltb_lt _ _) Hlt).
    + rewrite (fresh_for_one_hour now saved 0 fs (cache_of saved info));
        [|done|right; cbn; by rewrite Hr|done|done].
      by rewrite (proj2 (Z.ltb_lt _ _) Hage).
  - rewrite (fresh_for_one_hour now saved 0 fs (cache_of saved info));
      [|done|by left|done|done].
    by rewrite (proj2 (Z.ltb_lt _ _) Hage).
Qed.

(** X11.  Round trip of the rate-limit cache: what
    [_save_latest_rate_limit] wrote less than an hour ago is what
    [get_latest_rate_limit] returns, provided that a snapshot with nothing
    remaining and a reset time has that reset time still ahead. *)
Theorem save_then_get_latest_rate_limit (saved now : Z) (info : gmap string Z)
    (fs : TweetCounter.files) :
  TweetCounter.disk_writable fs = true ->
  now - saved < seconds 3600 ->
  (forall r, info !! "remaining"%string = Some 0 ->
             info !! "reset"%string = Some r ->
             r <> 0 ->
             representable r = true /\ now < seconds r) ->
  get_latest_rate_limit now (_save_latest_rate_limit saved info fs)
    = Some (cache_of saved info).
Proof.
  intros Hw Hage Hreset.
  apply get_latest_of_saved; [|done..].
  by apply save_latest_rate_limit_contents.
Qed.

Lemma save_then_get_latest_rate_limit_witness :
  let saved := seconds Scenario.T0 in
  let now := saved + seconds 60 in
  TweetCounter.disk_writable Scenario.no_files = true
  /\ now - saved < seconds 3600
  /\ get_latest_rate_limit now
       (_save_latest_rate_limit saved Scenario.info_ok Scenario.no_files)
     = Some (cache_of saved Scenario.info_ok).
Proof.
  intros saved now.
  assert (Hage : now - saved < seconds 3600) by (vm_compute; reflexivity).
  split; [reflexivity|]. split; [exact Hage|].
  refine (save_then_get_latest_rate_limit saved now Scenario.info_ok
            Scenario.no_files eq_refl Hage _).
  intros r Hrem. vm_compute in Hrem. discriminate Hrem.
Defined.

Lemma cache_after_log (posted : Z) (tweet_id text_preview : string)
    (info : gmap string Z) (fs : TweetCounter.files) :
  TweetCounter.disk_writable fs = true ->
  is_Some (info !! "remaining"%string) ->
  RATE_LIMIT_CACHE_FILE (log_tweet_posted posted tweet_id text_preview (Some info) fs)
    = Contents (cache_of posted info).
Proof.
  intros Hw Hrem. unfold log_tweet_posted.
  rewrite bool_decide_false.
  2: { intros ->. rewrite lookup_empty in Hrem. by destruct Hrem. }
  rewrite bool_decide_true by done.
  apply save_latest_rate_limit_contents.
  by apply load_after_save.
Qed.

(** X12.  The rate limit handed to [log_tweet_posted] is the
    [api_rate_limit] that [get_tweet_count_24h] reports during the hour
    that follows, on a well-formed log and a disk that takes writes (for
    a limit with nothing remaining: until its reset time). *)
Theorem logged_rate_limit_is_reported (posted now : Z) (tweet_id text_preview : string)
    (info : gmap string Z) (fs : TweetCounter.files) :
  TweetCounter.disk_writable fs = true ->
  Forall well_formed (_load_tweet_log fs) ->
  is_Some (info !! "remaining"%string) ->
  now - posted < seconds 3600 ->
  (forall r, info !! "remaining"%string = Some 0 ->
             info !! "reset"%string = Some r ->
             r <> 0 ->
             representable r = true /\ now < seconds r) ->
  Count.api_rate_limit
    (get_tweet_count_24h now
       (log_tweet_posted posted tweet_id text_preview (Some info) fs)).1
  = Some (cache_of posted info).
Proof.
  intros Hw Hwf Hrem Hage Hreset.
  rewrite get_tweet_count_24h_Ok.
  - cbn [fst counted Count.api_rate_limit].
    apply get_latest_of_saved; [|done..].
    rewrite cleanup_keeps_cache. by apply cache_after_log.
  - apply well_formed_not_offending.
    rewrite load_after_log by done. apply Forall_app. split; [done|].
    well_formed_log.
Qed.

Lemma logged_rate_limit_is_reported_witness :
  let posted := seconds Scenario.T0 in
  let now := posted + seconds 60 in
  TweetCounter.disk_writable Scenario.three_tweets = true
  /\ Forall well_formed (_load_tweet_log Scenario.three_tweets)
  /\ is_Some (Scenario.info_ok !! "remaining"%string)
  /\ now - posted < seconds 3600
  /\ Count.api_rate_limit
       (get_tweet_count_24h now
          (log_tweet_posted posted "1724" "Game of the night"
             (Some Scenario.info_ok) Scenario.three_tweets)).1
     = Some (cache_of posted Scenario.info_ok).
Proof.
  intros posted now.
  assert (Hwf : Forall well_formed (_load_tweet_log Scenario.three_tweets)).
  { well_formed_log. }
  assert (Hrem : is_Some (Scenario.info_ok !! "remaining"%string)) by (by eexists).
  assert (Hage : now - posted < seconds 3600) by (vm_compute; reflexivity).
  split; [reflexivity|]. split; [exact Hwf|]. split; [exact Hrem|]. split; [exact Hage|].
  refine (logged_rate_limit_is_reported posted now "1724" "Game of the night"
            Scenario.info_ok Scenario.three_tweets eq_refl Hwf Hrem Hage _).
  intros r Hzero. vm_compute in Hzero. discriminate Hzero.
Defined.

(** X13.  A tweet logged without rate-limit information, with an empty
    dictionary or with one that has no [remaining], leaves the rate-limit
    cache as it was: what an earlier response reported is not
    overwritten. *)
Theorem log_without_remaining_keeps_cache (posted : Z) (tweet_id text_preview : string)
    (rate_limit_info : option (gmap string Z)) (fs : TweetCounter.files) :
  (forall info, rate_limit_info = Some info -> info !! "remaining"%string = None) ->
  RATE_LIMIT_CACHE_FILE (log_tweet_posted posted tweet_id text_preview rate_limit_info fs)
    = RATE_LIMIT_CACHE_FILE fs.
Proof.
  intros Hnone. unfold log_tweet_posted.
  assert (Hsave : forall l, RATE_LIMIT_CACHE_FILE (_save_tweet_log l fs)
                            = RATE_LIMIT_CACHE_FILE fs).
  { intros l. unfold _save_tweet_log. by destruct (TweetCounter.disk_writable fs). }
  destruct rate_limit_info as [info|]; [|done].
  destruct (bool_decide (info = ∅)); [done|].
  rewrite (Hnone info eq_refl).
  rewrite bool_decide_false by (by intros [? [=]]). done.
Qed.

Lemma log_without_remaining_keeps_cache_witness :
  let fs := Scenario.latest (seconds Scenario.T0) 0 (Scenario.T0 + 3600) in
  let info : gmap string Z := {[ "limit"%string := 17 ]} in
  RATE_LIMIT_CACHE_FILE
    (log_tweet_posted (seconds Scenario.T0) "1724" "Game of the night" (Some info) fs)
  = RATE_LIMIT_CACHE_FILE fs.
Proof.
  intros fs info.
  refine (log_without_remaining_keeps_cache (seconds Scenario.T0) "1724"
            "Game of the night" (Some info) fs _).
  intros info' [= <-]. reflexivity.
Defined.

Lemma substring_prefix (n : nat) (s : string) :
  String.length (String.substring 0 n s) = Nat.min n (String.length s)
  /\ String.prefix (String.substring 0 n s) s = true.
Proof.
  revert s. induction n as [|n IH]; intros [|c s]; cbn; try done.
  destruct (IH s) as [Hlen Hpre]. rewrite Hlen, Hpre.
  split; [done|]. by destruct (Ascii.ascii_dec c c).
Qed.

(** X14.  The entry [log_tweet_posted] appends carries the identifier, the
    instant of the call as a UTC timestamp, and a preview that is the
    text cut to its first 50 characters: it is well-formed, so logging
    keeps a well-formed log well-formed. *)
Theorem logged_entry_is_well_formed (now : Z) (tweet_id text_preview : string)
    (rate_limit_info : option (gmap string Z)) (fs : TweetCounter.files) :
  TweetCounter.disk_writable fs = true ->
  exists entry p,
    _load_tweet_log (log_tweet_posted now tweet_id text_preview rate_limit_info fs)
      = _load_tweet_log fs ++ [entry]
    /\ Entry.tweet_id entry = Some tweet_id
    /\ Entry.posted_at entry = Some (IsoAware now 0)
    /\ Entry.text_preview entry = Some p
    /\ String.length p = Nat.min 50 (String.length text_preview)
    /\ String.prefix p text_preview = true
    /\ (Forall well_formed (_load_tweet_log fs) ->
        Forall well_formed
          (_load_tweet_log (log_tweet_posted now tweet_id text_preview rate_limit_info fs))).
Proof.
  intros Hw. eexists _, _. split; [by apply load_after_log|].
  destruct (substring_prefix 50 text_preview) as [Hlen Hpre].
  repeat split; [exact Hlen|exact Hpre|].
  intros Hwf. rewrite load_after_log by done.
  apply Forall_app. split; [done|]. well_formed_log.
Qed.

Lemma logged_entry_is_well_formed_witness :
  TweetCounter.disk_writable Scenario.three_tweets = true
  /\ exists entry p,
    _load_tweet_log (log_tweet_posted (seconds Scenario.T0) "1724"
        "A preview of more than fifty characters is cut to its first fifty"
        None Scenario.three_tweets)
      = _load_tweet_log Scenario.three_tweets ++ [entry]
    /\ Entry.tweet_id entry = Some "1724"%string
    /\ Entry.posted_at entry = Some (IsoAware (seconds Scenario.T0) 0)
    /\ Entry.text_preview entry = Some p
    /\ String.length p
       = Nat.min 50 (String.length
           "A preview of more than fifty characters is cut to its first fifty")
    /\ String.prefix p
         "A preview of more than fifty characters is cut to its first fifty" = true
    /\ (Forall well_formed (_load_tweet_log Scenario.three_tweets) ->
        Forall well_formed
          (_load_tweet_log (log_tweet_posted (seconds Scenario.T0) "1724"
             "A preview of more than fifty characters is cut to its first fifty"
             None Scenario.three_tweets))).
Proof.
  split; [reflexivity|].
  exact (logged_entry_is_well_formed (seconds Scenario.T0) "1724"
           "A preview of more than fifty characters is cut to its first fifty"
           None Scenario.three_tweets eq_refl).
Defined.

End recording.

(** ** The limits cache of [twitter_rate_limits] *)

Section limits_cache.

Lemma get_cached_rate_limits_accepted (now : Z) (fs : TwitterRateLimits.files)
    (data : Limits.t) :
  CACHE_FILE fs = Contents data -> accepted now data ->
  get_cached_rate_limits now fs = Some data.
Proof.
  intros Hfile (t & Hts & Hage).
  rewrite (get_cached_rate_limits_age now t fs data) by done.
  by rewrite (proj2 (Z.ltb_lt _ _) Hage).
Qed.

Lemma get_cached_rate_limits_accepts (now : Z) (fs : TwitterRateLimits.files)
    (data : Limits.t) :
  get_cached_rate_limits now fs = Some data ->
  CACHE_FILE fs = Contents data /\ accepted now data.
Proof.
  unfold get_cached_rate_limits, accepted.
  destruct (CACHE_FILE fs) as [| |d]; [done..|]. cbn.
  destruct (Limits.timestamp d) as [[|t|t offset]|] eqn:Hts; cbn;
    [done| |by destruct (valid_offset offset)|done].
  destruct (Z.ltb_spec (now - t) (hours 24)); cbn; [|done].
  intros [= <-]. split; [done|]. by exists t.
Qed.

Lemma get_cached_rate_limits_rejected (now : Z) (fs : TwitterRateLimits.files)
    (data : Limits.t) :
  CACHE_FILE fs = Contents data -> ~ accepted now data ->
  get_cached_rate_limits now fs = None.
Proof.
  intros Hfile Hno.
  destruct (get_cached_rate_limits now fs) as [d|] eqn:Hd; [|done].
  apply get_cached_rate_limits_accepts in Hd as [Hd Hacc].
  rewrite Hfile in Hd. injection Hd as <-. done.
Qed.

(** X15.  [get_cached_rate_limits] returns the content of the cache file
    exactly when the file is readable and its timestamp is a datetime
    without UTC offset less than 24 hours back (a timestamp in the future
    counts); an absent or unreadable file, a missing or malformed
    timestamp and a timestamp with a UTC offset all give no data. *)
Theorem get_cached_rate_limits_iff (now : Z) (fs : TwitterRateLimits.files)
    (data : Limits.t) :
  get_cached_rate_limits now fs = Some data
  <-> CACHE_FILE fs = Contents data /\ accepted now data.
Proof.
  split; [apply get_cached_rate_limits_accepts|].
  intros [? ?]. by apply get_cached_rate_limits_accepted.
Qed.

(** X16.  Round trip of the limits cache: on a disk that takes writes,
    what [_save_cache] wrote is what [get_cached_rate_limits] returns
    while its timestamp is accepted; [get_24h_rate_limits_from_api]
    returns it too when its source is "error_headers" or
    "error_response", and nothing for any other source. *)
Theorem save_cache_then_load (now : Z) (data : Limits.t) (fs : TwitterRateLimits.files) :
  TwitterRateLimits.disk_writable fs = true ->
  accepted now data ->
  get_cached_rate_limits now (_save_cache data fs) = Some data
  /\ get_24h_rate_limits_from_api now (_save_cache data fs)
     = (if bool_decide (Limits.source data = Some "error_headers"%string
                        \/ Limits.source data = Some "error_response"%string)
        then Some data else None).
Proof.
  intros Hw Hacc.
  assert (Hget : get_cached_rate_limits now (_save_cache data fs) = Some data).
  { apply get_cached_rate_limits_accepted; [|done].
    unfold _save_cache. by rewrite Hw. }
  split; [done|].
  unfold get_24h_rate_limits_from_api, from_429_error. rewrite Hget.
  destruct Hacc as (t & Hts & _).
  rewrite timestamped_not_empty by (by rewrite Hts). done.
Qed.

Lemma save_cache_then_load_witness :
  let now := seconds Scenario.T0 + hours 2 in
  let data := Scenario.tweet_limits (seconds Scenario.T0) in
  TwitterRateLimits.disk_writable Scenario.no_cache = true
  /\ accepted now data
  /\ get_cached_rate_limits now (_save_cache data Scenario.no_cache) = Some data
  /\ get_24h_rate_limits_from_api now (_save_cache data Scenario.no_cache)
     = (if bool_decide (Limits.source data = Some "error_headers"%string
                        \/ Limits.source data = Some "error_response"%string)
        then Some data else None).
Proof.
  intros now data.
  assert (Hacc : accepted now data).
  { exists (seconds Scenario.T0). split; [reflexivity|]. vm_compute. reflexivity. }
  split; [reflexivity|]. split; [exact Hacc|].
  exact (save_cache_then_load now data Scenario.no_cache eq_refl Hacc).
Defined.

(** X17.  The source of the cache makes no difference to the gate: the
    filter on the source in [get_24h_rate_limits_from_api] is undone by
    the fall-back on [get_cached_rate_limits], and [check_can_post_tweet]
    answers the same on two caches that differ in their source only. *)
Theorem check_can_post_tweet_any_source (tz now : Z) (data : Limits.t)
    (source : option string) :
  check_can_post_tweet tz now (cached (with_source source data))
  = check_can_post_tweet tz now (cached data).
Proof.
  destruct (get_cached_rate_limits now (cached data)) as [d|] eqn:Hd.
  - apply get_cached_rate_limits_accepts in Hd as [[= <-] Hacc].
    rewrite (check_with_limits tz now (cached data) data)
      by by apply get_cached_rate_limits_accepted.
    rewrite (check_with_limits tz now (cached (with_source source data))
               (with_source source data)); [done|].
    by apply get_cached_rate_limits_accepted.
  - assert (Hno : ~ accepted now data).
    { intros Hacc.
      by rewrite (get_cached_rate_limits_accepted now (cached data) data) in Hd. }
    destruct (check_without_limits tz _ _ Hd) as [_ ->].
    by apply check_without_limits, (get_cached_rate_limits_rejected _ _ (with_source source data)).
Qed.

End limits_cache.

(** ** The display: [format_rate_limit_display] *)

Section display.


Lemma format_reset_returns (tz now : Z) (reset_ts : option Z) :
  displayable tz reset_ts -> exists r, format_reset tz now reset_ts = Ok r.
Proof.
  intros Hd. unfold format_reset.
  destruct reset_ts as [ts|]; [|by eexists].
  destruct (valid_reset (Some ts)) eqn:Hv; [|by eexists].
  assert (0 < ts).
  { unfold valid_reset in Hv. apply andb_true_iff in Hv as [_ Hv]. lia. }
  unfold fromtimestamp. rewrite (Hd ts eq_refl) by done. cbn.
  destruct (_ <=? _); by eexists.
Qed.

(** The display of a non-empty dictionary, with the two scopes formatted. *)
Lemma display_unfold (tz now : Z) (data : Limits.t) (d : Display.t) :
  format_rate_limit_display tz now (Some data) = Ok (DisplayLimits d) ->
  exists app_reset_str app_hours user_reset_str user_hours,
    format_reset tz now (reset_of (Limits.app_24h data)) = Ok (app_reset_str, app_hours)
    /\ format_reset tz now (reset_of (Limits.user_24h data)) = Ok (user_reset_str, user_hours)
    /\ Display.can_post d
       = (0 <? remaining_of (Limits.app_24h data))
         && (0 <? remaining_of (Limits.user_24h data))
    /\ ScopeDisplay.remaining (Display.app_24h d) = remaining_of (Limits.app_24h data)
    /\ ScopeDisplay.remaining (Display.user_24h d) = remaining_of (Limits.user_24h data)
    /\ ScopeDisplay.status (Display.app_24h d)
       = (if remaining_of (Limits.app_24h data) =? 0 then EXHAUSTED else OK)
    /\ ScopeDisplay.status (Display.user_24h d)
       = (if remaining_of (Limits.user_24h data) =? 0 then EXHAUSTED else OK)
    /\ ScopeDisplay.used (Display.app_24h d)
       = ScopeDisplay.limit (Display.app_24h d) - ScopeDisplay.remaining (Display.app_24h d)
    /\ ScopeDisplay.used (Display.user_24h d)
       = ScopeDisplay.limit (Display.user_24h d) - ScopeDisplay.remaining (Display.user_24h d)
    /\ ScopeDisplay.reset_time (Display.user_24h d) = user_reset_str
    /\ ScopeDisplay.hours_until_reset (Display.user_24h d) = user_hours
    /\ ScopeDisplay.reset_time (Display.app_24h d)
       = (if valid_reset (reset_of (Limits.user_24h data))
          then user_reset_str else app_reset_str)
    /\ ScopeDisplay.hours_until_reset (Display.app_24h d)
       = (if valid_reset (reset_of (Limits.user_24h data))
          then user_hours else app_hours).
Proof.
  unfold format_rate_limit_display, reset_of, remaining_of.
  destruct (Limits.is_empty data); [done|].
  destruct (format_reset tz now (Scope.reset (get (Limits.app_24h data) Scope.empty)))
    as [[app_reset_str app_hours]|]; [|done]. cbn.
  destruct (format_reset tz now (Scope.reset (get (Limits.user_24h data) Scope.empty)))
    as [[user_reset_str user_hours]|]; [|done]. cbn.
  intros [= <-]. by exists app_reset_str, app_hours, user_reset_str, user_hours.
Qed.

(** X18.  Whatever limits it is given, a display that
    [format_rate_limit_display] returns is consistent: [can_post] holds
    exactly when both scopes show a [remaining] above zero, a scope is
    EXHAUSTED exactly when its [remaining] is zero, [used] is [limit]
    minus [remaining], and no scope shows a negative number of hours
    until its reset. *)
Theorem display_is_consistent (tz now : Z) (limits : option Limits.t) (d : Display.t) :
  format_rate_limit_display tz now limits = Ok (DisplayLimits d) ->
  (Display.can_post d = true
     <-> 0 < ScopeDisplay.remaining (Display.app_24h d)
         /\ 0 < ScopeDisplay.remaining (Display.user_24h d))
  /\ (ScopeDisplay.status (Display.app_24h d) = EXHAUSTED
        <-> ScopeDisplay.remaining (Display.app_24h d) = 0)
  /\ (ScopeDisplay.status (Display.user_24h d) = EXHAUSTED
        <-> ScopeDisplay.remaining (Display.user_24h d) = 0)
  /\ ScopeDisplay.used (Display.app_24h d)
     = ScopeDisplay.limit (Display.app_24h d) - ScopeDisplay.remaining (Display.app_24h d)
  /\ ScopeDisplay.used (Display.user_24h d)
     = ScopeDisplay.limit (Display.user_24h d) - ScopeDisplay.remaining (Display.user_24h d)
  /\ 0 <= ScopeDisplay.hours_until_reset (Display.app_24h d)
  /\ 0 <= ScopeDisplay.hours_until_reset (Display.user_24h d).
Proof.
  destruct limits as [data|]; [|done]. intros Hd.
  destruct (display_unfold _ _ _ _ Hd)
    as (ars & ah & urs & uh & Hfa & Hfu & Hcan & Hra & Hru & Hsa & Hsu & Hua & Huu
        & _ & Hhu & _ & Hha).
  destruct (format_reset_not_negative _ _ _ _ _ Hfa) as [? _].
  destruct (format_reset_not_negative _ _ _ _ _ Hfu) as [? _].
  rewrite Hcan, Hsa, Hsu, Hha, Hhu, Hua, Huu, Hra, Hru.
  split; [by rewrite andb_true_iff, !Z.ltb_lt|].
  split; [destruct (Z.eqb_spec (remaining_of (Limits.app_24h data)) 0);
          intuition congruence|].
  split; [destruct (Z.eqb_spec (remaining_of (Limits.user_24h data)) 0);
          intuition congruence|].
  do 2 (split; [done|]).
  split; [by destruct (valid_reset _)|done].
Qed.

Lemma display_is_consistent_witness :
  let now := seconds Scenario.T0 in
  exists d,
    format_rate_limit_display UTC now
      (get_cached_rate_limits now Scenario.user_exhausted) = Ok (DisplayLimits d)
    /\ (Display.can_post d = true
          <-> 0 < ScopeDisplay.remaining (Display.app_24h d)
              /\ 0 < ScopeDisplay.remaining (Display.user_24h d))
    /\ (ScopeDisplay.status (Display.app_24h d) = EXHAUSTED
          <-> ScopeDisplay.remaining (Display.app_24h d) = 0)
    /\ (ScopeDisplay.status (Display.user_24h d) = EXHAUSTED
          <-> ScopeDisplay.remaining (Display.user_24h d) = 0)
    /\ ScopeDisplay.used (Display.app_24h d)
       = ScopeDisplay.limit (Display.app_24h d) - ScopeDisplay.remaining (Display.app_24h d)
    /\ ScopeDisplay.used (Display.user_24h d)
       = ScopeDisplay.limit (Display.user_24h d) - ScopeDisplay.remaining (Display.user_24h d)
    /\ 0 <= ScopeDisplay.hours_until_reset (Display.app_24h d)
    /\ 0 <= ScopeDisplay.hours_until_reset (Display.user_24h d).
Proof.
  intros now. eexists. split; [reflexivity|].
  exact (display_is_consistent UTC now (get_cached_rate_limits now Scenario.user_exhausted)
           _ eq_refl).
Defined.



End display.

(** ** The display and the gate side by side *)

Section display_and_gate.

(** X20.  The application row of the display shows the reset of the user
    scope whenever the user scope has a reset time above zero, also when
    the application scope has a reset time of its own; it shows its own
    only when the user scope has none. *)
Theorem display_app_row_reset (tz now : Z) (data : Limits.t) (d : Display.t) :
  format_rate_limit_display tz now (Some data) = Ok (DisplayLimits d) ->
  (forall ts, reset_of (Limits.user_24h data) = Some ts -> 0 < ts ->
     ScopeDisplay.reset_time (Display.app_24h d)
       = ScopeDisplay.reset_time (Display.user_24h d)
     /\ ScopeDisplay.hours_until_reset (Display.app_24h d)
        = ScopeDisplay.hours_until_reset (Display.user_24h d))
  /\ ((forall ts, reset_of (Limits.user_24h data) = Some ts -> ts <= 0) ->
      format_reset tz now (reset_of (Limits.app_24h data))
      = Ok (ScopeDisplay.reset_time (Display.app_24h d),
            ScopeDisplay.hours_until_reset (Display.app_24h d))).
Proof.
  intros Hd.
  destruct (display_unfold _ _ _ _ Hd)
    as (ars & ah & urs & uh & Hfa & _ & _ & _ & _ & _ & _ & _ & _ & Hru & Hhu & Hra & Hha).
  rewrite Hra, Hha, Hru, Hhu. split.
  - intros ts Hts Hpos. rewrite Hts. unfold valid_reset.
    rewrite bool_decide_true by lia. by rewrite (proj2 (Z.ltb_lt _ _) Hpos).
  - intros Hnone.
    assert (valid_reset (reset_of (Limits.user_24h data)) = false) as ->; [|done].
    destruct (reset_of (Limits.user_24h data)) as [ts|]; [|done].
    specialize (Hnone ts eq_refl). unfold valid_reset.
    rewrite (proj2 (Z.ltb_ge _ _) Hnone). apply andb_false_r.
Qed.

Lemma display_app_row_reset_witness :
  let now := seconds Scenario.T0 in
  let data :=
    {| Limits.app_24h := Some (Scenario.scope 17 0 (Scenario.T0 + 7200));
       Limits.user_24h := Some (Scenario.scope 25 3 (Scenario.T0 + 3600));
       Limits.window_15min := None;
       Limits.timestamp := Some (IsoNaive now);
       Limits.source := Some "error_headers"%string;
       Limits.tweet_count_24h := None;
       Limits.user_id := None |} in
  exists d,
    format_rate_limit_display UTC now (Some data) = Ok (DisplayLimits d)
    /\ reset_of (Limits.user_24h data) = Some (Scenario.T0 + 3600)
    /\ 0 < Scenario.T0 + 3600
    /\ ScopeDisplay.reset_time (Display.app_24h d)
       = ScopeDisplay.reset_time (Display.user_24h d)
    /\ ScopeDisplay.hours_until_reset (Display.app_24h d)
       = ScopeDisplay.hours_until_reset (Display.user_24h d).
Proof.
  intros now data. eexists. split; [reflexivity|].
  assert (Hpos : 0 < Scenario.T0 + 3600) by (vm_compute; reflexivity).
  split; [reflexivity|]. split; [exact Hpos|].
  exact (proj1 (display_app_row_reset UTC now data _ eq_refl)
           (Scenario.T0 + 3600) eq_refl Hpos).
Defined.

(** X21.  The display does not need the fields the gate needs: on any
    non-empty dictionary whose reset times, where present and above zero,
    are timestamps that [datetime.fromtimestamp] converts to the local
    time of the machine, [format_rate_limit_display] returns a display,
    whether or not the scopes, their [remaining] or their [reset] are
    there. *)
Theorem display_returns (tz now : Z) (data : Limits.t) :
  Limits.is_empty data = false ->
  displayable tz (reset_of (Limits.app_24h data)) ->
  displayable tz (reset_of (Limits.user_24h data)) ->
  exists d, format_rate_limit_display tz now (Some data) = Ok (DisplayLimits d).
Proof.
  intros Hne Ha Hu. unfold format_rate_limit_display. rewrite Hne.
  destruct (format_reset_returns tz now _ Ha) as [[ars ah] Hfa].
  destruct (format_reset_returns tz now _ Hu) as [[urs uh] Hfu].
  unfold reset_of in Hfa, Hfu. rewrite Hfa. cbn. rewrite Hfu. cbn. by eexists.
Qed.

Lemma display_returns_witness :
  let tz := 3600 in
  let now := seconds Scenario.T0 in
  let data :=
    {| Limits.app_24h := None;
       Limits.user_24h :=
         Some {| Scope.limit := None; Scope.remaining := None;
                 Scope.reset := Some (Scenario.T0 + 3600) |};
       Limits.window_15min := None;
       Limits.timestamp := Some (IsoNaive (now - hours 1));
       Limits.source := None;
       Limits.tweet_count_24h := Some 3;
       Limits.user_id := Some 42 |} in
  Limits.is_empty data = false
  /\ displayable tz (reset_of (Limits.app_24h data))
  /\ displayable tz (reset_of (Limits.user_24h data))
  /\ check_can_post_tweet tz now (cached data) = Raise (KeyError "reset")
  /\ exists d, format_rate_limit_display tz now (Some data) = Ok (DisplayLimits d).
Proof.
  intros tz now data.
  assert (Ha : displayable tz (reset_of (Limits.app_24h data))) by (by intros ts [=]).
  assert (Hu : displayable tz (reset_of (Limits.user_24h data))).
  { intros ts [= <-] _. reflexivity. }
  split; [reflexivity|]. split; [exact Ha|]. split; [exact Hu|].
  split; [reflexivity|].
  exact (display_returns tz now data eq_refl Ha Hu).
Defined.

(** The last second of the year 9999 is a reset time that a machine in
    UTC shows and a machine one hour ahead of UTC cannot: there the
    conversion to local time raises. *)
Example display_at_max_timestamp :
  let now := seconds Scenario.T0 in
  let data :=
    {| Limits.app_24h := Some (Scenario.scope 17 5 MAX_TIMESTAMP);
       Limits.user_24h := None;
       Limits.window_15min := None;
       Limits.timestamp := Some (IsoNaive now);
       Limits.source := None;
       Limits.tweet_count_24h := None;
       Limits.user_id := None |} in
  (exists d, format_rate_limit_display UTC now (Some data) = Ok (DisplayLimits d))
  /\ (exists e, format_rate_limit_display 3600 now (Some data) = Raise e).
Proof. split; by eexists. Qed.

(** X22.  When the display of the cached limits says [can_post], the gate
    allows, and announces the lesser of the two [remaining] shown. *)
Theorem display_can_post_gate_allows (tz now : Z) (fs : TwitterRateLimits.files)
    (d : Display.t) :
  format_rate_limit_display tz now (get_cached_rate_limits now fs) = Ok (DisplayLimits d) ->
  Display.can_post d = true ->
  check_can_post_tweet tz now fs
  = Ok (true, CanPost (Z.min (ScopeDisplay.remaining (Display.app_24h d))
                             (ScopeDisplay.remaining (Display.user_24h d)))).
Proof.
  destruct (get_cached_rate_limits now fs) as [data|] eqn:Hc; [|done].
  intros Hd Hcan.
  destruct (display_unfold _ _ _ _ Hd)
    as (_ & _ & _ & _ & _ & _ & Hcp & Hra & Hru & _).
  rewrite Hcp in Hcan. apply andb_true_iff in Hcan as [Ha%Z.ltb_lt Hu%Z.ltb_lt].
  rewrite (check_with_limits _ _ _ _ Hc), Hra, Hru. cbn zeta.
  fold (remaining_of (Limits.app_24h data)) (remaining_of (Limits.user_24h data)).
  destruct (Z.eqb_spec (remaining_of (Limits.app_24h data)) 0); [lia|].
  destruct (Z.eqb_spec (remaining_of (Limits.user_24h data)) 0); [lia|]. done.
Qed.

Lemma display_can_post_gate_allows_witness :
  let now := seconds Scenario.T0 in
  let fs := Scenario.error_cache (now - hours 1)
              (Scenario.scope 17 4 (Scenario.T0 + 3600))
              (Scenario.scope 25 9 (Scenario.T0 + 3600)) in
  exists d,
    format_rate_limit_display UTC now (get_cached_rate_limits now fs) = Ok (DisplayLimits d)
    /\ Display.can_post d = true
    /\ check_can_post_tweet UTC now fs
       = Ok (true, CanPost (Z.min (ScopeDisplay.remaining (Display.app_24h d))
                                  (ScopeDisplay.remaining (Display.user_24h d)))).
Proof.
  intros now fs. eexists. split; [reflexivity|]. split; [reflexivity|].
  exact (display_can_post_gate_allows UTC now fs _ eq_refl eq_refl).
Defined.

(** X23.  A scope without [remaining] counts as exhausted: on an accepted
    cache whose [app_24h] or [user_24h] is missing or has no [remaining],
    the gate never allows, and the display never says [can_post]. *)
Theorem missing_remaining_never_allows (tz now : Z) (fs : TwitterRateLimits.files)
    (data : Limits.t) :
  get_cached_rate_limits now fs = Some data ->
  Scope.remaining (get (Limits.app_24h data) Scope.empty) = None
  \/ Scope.remaining (get (Limits.user_24h data) Scope.empty) = None ->
  (forall m, check_can_post_tweet tz now fs <> Ok (true, m))
  /\ (forall d, format_rate_limit_display tz now (Some data) = Ok (DisplayLimits d) ->
                Display.can_post d = false).
Proof.
  intros Hc Hmiss. split.
  - intros m. rewrite (check_with_limits _ _ _ _ Hc). cbn zeta.
    destruct Hmiss as [-> | ->]; cbn; [apply exhausted_denies|].
    destruct (_ =? 0); [apply exhausted_denies|].
    apply exhausted_denies.
  - intros d Hd.
    destruct (display_unfold _ _ _ _ Hd) as (_ & _ & _ & _ & _ & _ & -> & _).
    unfold remaining_of.
    destruct Hmiss as [-> | ->]; cbn; [done|apply andb_false_r].
Qed.

Lemma missing_remaining_never_allows_witness :
  let now := seconds Scenario.T0 in
  let data :=
    {| Limits.app_24h := Some (Scenario.scope 17 5 (Scenario.T0 + 3600));
       Limits.user_24h :=
         Some {| Scope.limit := Some 25; Scope.remaining := None;
                 Scope.reset := Some (Scenario.T0 + 3600) |};
       Limits.window_15min := None;
       Limits.timestamp := Some (IsoNaive now);
       Limits.source := Some "error_headers"%string;
       Limits.tweet_count_24h := None;
       Limits.user_id := None |} in
  get_cached_rate_limits now (cached data) = Some data
  /\ (forall m, check_can_post_tweet UTC now (cached data) <> Ok (true, m))
  /\ (forall d, format_rate_limit_display UTC now (Some data) = Ok (DisplayLimits d) ->
                Display.can_post d = false).
Proof.
  intros now data. split; [reflexivity|].
  exact (missing_remaining_never_allows UTC now (cached data) data eq_refl
           (or_intror eq_refl)).
Defined.



(** Outside that range the gate raises: a reset time on the first day of
    the year 1 cannot be converted to local time, on a machine in UTC or
    elsewhere. *)
Example gate_raises_at_min_timestamp :
  let now := seconds Scenario.T0 in
  let fs := Scenario.error_cache (now - hours 1)
              (Scenario.scope 17 0 MIN_TIMESTAMP)
              (Scenario.scope 25 5 (Scenario.T0 + 3600)) in
  local_representable UTC MIN_TIMESTAMP = false
  /\ (exists e, check_can_post_tweet UTC now fs = Raise e)
  /\ (exists e, check_can_post_tweet 3600 now fs = Raise e).
Proof. split; [reflexivity|]. split; by eexists. Qed.

End display_and_gate.

(** ** Counting through the API: [count_tweets_last_24h] *)

Section api_count.

Lemma length_string_append (a b : string) :
  String.length (String.append a b) = (String.length a + String.length b)%nat.
Proof. induction a as [|c a IH]; simpl; [done|by f_equal]. Qed.

Lemma shorten_length (text : string) : (String.length (shorten text) <= 53)%nat.
Proof.
  unfold shorten. destruct (Nat.ltb_spec 50 (String.length text)) as [Hlt|Hge].
  - rewrite length_string_append, (proj1 (substring_prefix 50 text)).
    change (String.length "...") with 3%nat. lia.
  - lia.
Qed.

(** X25.  Every error of [count_tweets_last_24h] is reported with a full
    quota: when the dictionary returned has an [error], its [count] is 0,
    its [remaining] is 17, it lists no tweet, and the cache file is left
    as it was. *)
Theorem count_errors_report_full_quota (now : Z) (client_v2 : client)
    (api_v1 : option api) (fs : TwitterRateLimits.files) :
  is_Some (Counted.error (count_tweets_last_24h now client_v2 api_v1 fs).1) ->
  exists error,
    count_tweets_last_24h now client_v2 api_v1 fs = (failed error, fs)
    /\ Counted.count (failed error) = 0
    /\ Counted.remaining (failed error) = 17.
Proof.
  unfold count_tweets_last_24h.
  destruct (authenticated_user now client_v2 fs) as [user_id|error]; [|by eexists].
  destruct (get_users_tweets client_v2 user_id) as [data|[m|m]].
  - by intros [? [=]].
  - destruct (get_cached_rate_limits now fs ≫= Limits.tweet_count_24h);
      [by intros [? [=]]|by eexists].
  - destruct api_v1 as [v1|]; [|by intros [? [=]]].
    destruct (user_timeline v1); [by intros [? [=]]|by eexists].
Qed.

Lemma count_errors_report_full_quota_witness :
  exists error,
    count_tweets_last_24h (seconds Scenario.T0) Clients.rate_limited None Scenario.no_cache
    = (failed error, Scenario.no_cache)
    /\ Counted.count (failed error) = 0
    /\ Counted.remaining (failed error) = 17.
Proof.
  refine (count_errors_report_full_quota (seconds Scenario.T0) Clients.rate_limited
            None Scenario.no_cache _).
  by eexists.
Defined.

Lemma failed_consistent (now : Z) (error : string) :
  consistent_count now (failed error).
Proof.
  split; [done|]. split.
  - intros _. cbn. unfold TwitterRateLimits.FREE_TIER_24H_LIMIT. lia.
  - by intros ? ?%elem_of_nil.
Qed.

Lemma counted_consistent (now user_id : Z) (l : list Recent.t)
    (fs : TwitterRateLimits.files) :
  (forall tweet, tweet ∈ l ->
     (String.length (Recent.text tweet) <= 53)%nat
     /\ exists t, Recent.created_at tweet = IsoAware t 0 /\ now - hours 24 <= t) ->
  consistent_count now (counted_and_cached now user_id l fs).1.
Proof.
  intros Hl. split; [done|]. split; [|done].
  intros _. cbn. unfold TwitterRateLimits.FREE_TIER_24H_LIMIT. lia.
Qed.

(** X26.  Whatever the client answers, the dictionary of
    [count_tweets_last_24h] has [limit] 17; unless it comes from the
    cache, its [count] is the number of tweets it lists and its
    [remaining] is [max(0, 17 - count)], between 0 and 17; and every
    tweet it lists was created at or after [now - 24h] and has a text of
    at most 53 characters. *)
Theorem count_is_consistent (now : Z) (client_v2 : client) (api_v1 : option api)
    (fs : TwitterRateLimits.files) :
  consistent_count now (count_tweets_last_24h now client_v2 api_v1 fs).1.
Proof.
  unfold count_tweets_last_24h.
  destruct (authenticated_user now client_v2 fs) as [user_id|error];
    [|apply failed_consistent].
  destruct (get_users_tweets client_v2 user_id) as [data|[m|m]].
  - apply counted_consistent. unfold recent_tweets.
    intros tweet (t & -> & Ht%list_elem_of_filter)%list_elem_of_fmap. cbn.
    split; [apply shorten_length|]. eexists. split; [done|]. by destruct Ht.
  - destruct (get_cached_rate_limits now fs ≫= Limits.tweet_count_24h);
      [|apply failed_consistent].
    split; [done|]. split; [done|]. by intros ? ?%elem_of_nil.
  - destruct api_v1 as [v1|].
    + destruct (user_timeline v1) as [timeline|]; [|apply failed_consistent].
      apply counted_consistent. unfold recent_statuses.
      intros tweet (t & -> & Ht%list_elem_of_filter)%list_elem_of_fmap. cbn.
      split; [apply shorten_length|]. eexists. split; [done|]. by destruct Ht.
    + apply counted_consistent. by intros ? ?%elem_of_nil.
Qed.

Lemma accepted_tweet_count_cache (now later count user_id : Z) :
  later - now < hours 24 -> accepted later (tweet_count_cache now count user_id).
Proof. intros Hage. by exists now. Qed.

Lemma cache_after_count (now later user_id : Z) (l : list Recent.t)
    (fs : TwitterRateLimits.files) :
  TwitterRateLimits.disk_writable fs = true ->
  later - now < hours 24 ->
  get_cached_rate_limits later (counted_and_cached now user_id l fs).2
  = Some (tweet_count_cache now (Z.of_nat (length l)) user_id).
Proof.
  intros Hw Hage. apply get_cached_rate_limits_accepted.
  - cbn. unfold _save_cache. by rewrite Hw.
  - by apply accepted_tweet_count_cache.
Qed.

(** X27.  The count taken from the cache is not clamped: when the fetch of
    the tweets is refused with 429 and the cache holds a count,
    [count_tweets_last_24h] returns that count with
    [remaining = 17 - count], which is negative for a cached count above
    17, where every other return has [remaining] between 0 and 17. *)
Theorem count_from_cache_is_not_clamped (now : Z) (client_v2 : client)
    (api_v1 : option api) (fs : TwitterRateLimits.files)
    (user_id cached_count : Z) (message : string) (data : Limits.t) :
  authenticated_user now client_v2 fs = inl user_id ->
  get_users_tweets client_v2 user_id = Raises (TooManyRequests message) ->
  get_cached_rate_limits now fs = Some data ->
  Limits.tweet_count_24h data = Some cached_count ->
  let result := (count_tweets_last_24h now client_v2 api_v1 fs).1 in
  Counted.count result = cached_count
  /\ Counted.remaining result = 17 - cached_count
  /\ Counted.cached result = true
  /\ Counted.error result = None
  /\ Counted.tweets result = []
  /\ (17 < cached_count <-> Counted.remaining result < 0)
  /\ (count_tweets_last_24h now client_v2 api_v1 fs).2 = fs.
Proof.
  intros Huser Hfetch Hcache Hcount. cbn zeta.
  unfold count_tweets_last_24h. rewrite Huser, Hfetch, Hcache. cbn.
  rewrite Hcount. cbn. unfold TwitterRateLimits.FREE_TIER_24H_LIMIT.
  repeat split; try done; lia.
Qed.

Lemma count_from_cache_is_not_clamped_witness :
  let now := seconds Scenario.T0 in
  let fs := Clients.counted_before (now - hours 1) 20 in
  let result := (count_tweets_last_24h now (Clients.fetch_limited Clients.nba) None fs).1 in
  Counted.count result = 20
  /\ Counted.remaining result = 17 - 20
  /\ Counted.cached result = true
  /\ Counted.error result = None
  /\ Counted.tweets result = []
  /\ (17 < 20 <-> Counted.remaining result < 0)
  /\ (count_tweets_last_24h now (Clients.fetch_limited Clients.nba) None fs).2 = fs.
Proof.
  intros now fs.
  exact (count_from_cache_is_not_clamped now (Clients.fetch_limited Clients.nba) None fs
           42 20 "429 Too Many Requests" (tweet_count_cache (now - hours 1) 20 42)
           eq_refl eq_refl eq_refl eq_refl).
Defined.

(** X28.  Round trip of the count: after a call that fetched the tweets of
    user [me] on a disk that takes writes, a call made within 24 hours
    that is refused both [get_me] and the fetch answers from the cache
    with the count of the first call, for the same user. *)
Theorem count_is_served_from_cache (now later : Z) (first second : client)
    (api_v1 api_v1' : option api) (fs : TwitterRateLimits.files)
    (me : User.t) (data : list ApiTweet.t) (m1 m2 : string) :
  TwitterRateLimits.disk_writable fs = true ->
  later - now < hours 24 ->
  get_me first = Response (Some me) ->
  get_users_tweets first (User.id me) = Response data ->
  get_me second = Raises (TooManyRequests m1) ->
  get_users_tweets second (User.id me) = Raises (TooManyRequests m2) ->
  let before := count_tweets_last_24h now first api_v1 fs in
  let after := count_tweets_last_24h later second api_v1' before.2 in
  Counted.error before.1 = None
  /\ Counted.count after.1 = Counted.count before.1
  /\ Counted.cached after.1 = true
  /\ Counted.error after.1 = None
  /\ after.2 = before.2.
Proof.
  intros Hw Hage Hme Hdata Hme' Hfetch'. cbn zeta.
  assert (Hbefore : count_tweets_last_24h now first api_v1 fs
                    = counted_and_cached now (User.id me)
                        (recent_tweets (now - hours 24) data) fs).
  { unfold count_tweets_last_24h, authenticated_user. by rewrite Hme, Hdata. }
  rewrite Hbefore.
  pose proof (cache_after_count now later (User.id me)
                (recent_tweets (now - hours 24) data) fs Hw Hage) as Hcache.
  unfold count_tweets_last_24h, authenticated_user.
  rewrite Hme', Hcache. cbn. by rewrite Hfetch'.
Qed.

Lemma count_is_served_from_cache_witness :
  let now := seconds Scenario.T0 in
  let later := now + hours 2 in
  let before := count_tweets_last_24h now (Clients.answering Clients.nba Clients.timeline)
                  None Scenario.no_cache in
  let after := count_tweets_last_24h later Clients.rate_limited None before.2 in
  later - now < hours 24
  /\ Counted.count before.1 = 2
  /\ Counted.error before.1 = None
  /\ Counted.count after.1 = Counted.count before.1
  /\ Counted.cached after.1 = true
  /\ Counted.error after.1 = None
  /\ after.2 = before.2.
Proof.
  intros now later.
  assert (Hage : later - now < hours 24) by (vm_compute; reflexivity).
  split; [exact Hage|]. split; [reflexivity|].
  exact (count_is_served_from_cache now later
           (Clients.answering Clients.nba Clients.timeline) Clients.rate_limited
           None None Scenario.no_cache Clients.nba Clients.timeline
           "429 Too Many Requests" "429 Too Many Requests"
           eq_refl Hage eq_refl eq_refl eq_refl eq_refl).
Defined.

(** X29.  A count that succeeds takes the place of the limits in the
    cache: after [count_tweets_last_24h] returned a fresh count on a disk
    that takes writes, whatever the cache held, for the 24 hours that
    follow [get_24h_rate_limits_from_api] has no data and
    [check_can_post_tweet] raises [KeyError] on [reset]. *)
Theorem count_then_check_raises (tz now later : Z) (client_v2 : client)
    (api_v1 : option api) (fs : TwitterRateLimits.files) :
  TwitterRateLimits.disk_writable fs = true ->
  later - now < hours 24 ->
  Counted.error (count_tweets_last_24h now client_v2 api_v1 fs).1 = None ->
  Counted.cached (count_tweets_last_24h now client_v2 api_v1 fs).1 = false ->
  get_24h_rate_limits_from_api later (count_tweets_last_24h now client_v2 api_v1 fs).2
    = None
  /\ check_can_post_tweet tz later (count_tweets_last_24h now client_v2 api_v1 fs).2
     = Raise (KeyError "reset").
Proof.
  intros Hw Hage.
  assert (Hcounted : forall user_id l,
    get_24h_rate_limits_from_api later (counted_and_cached now user_id l fs).2 = None
    /\ check_can_post_tweet tz later (counted_and_cached now user_id l fs).2
       = Raise (KeyError "reset")).
  { intros user_id l.
    pose proof (cache_after_count now later user_id l fs Hw Hage) as Hcache. split.
    - unfold get_24h_rate_limits_from_api. by rewrite Hcache.
    - by apply (check_raises_without_reset _ _ _ _ Hcache). }
  unfold count_tweets_last_24h.
  destruct (authenticated_user now client_v2 fs) as [user_id|error]; [|done].
  destruct (get_users_tweets client_v2 user_id) as [data|[m|m]].
  - intros _ _. apply Hcounted.
  - by destruct (get_cached_rate_limits now fs ≫= Limits.tweet_count_24h).
  - destruct api_v1 as [v1|]; [|intros _ _; apply Hcounted].
    destruct (user_timeline v1); [intros _ _; apply Hcounted|done].
Qed.

Lemma count_then_check_raises_witness :
  let now := seconds Scenario.T0 in
  let later := now + hours 2 in
  let client_v2 := Clients.answering Clients.nba Clients.timeline in
  let fs := Scenario.after_reset in
  later - now < hours 24
  /\ (exists m, check_can_post_tweet UTC now fs = Ok (false, m))
  /\ get_24h_rate_limits_from_api later (count_tweets_last_24h now client_v2 None fs).2
     = None
  /\ check_can_post_tweet UTC later (count_tweets_last_24h now client_v2 None fs).2
     = Raise (KeyError "reset").
Proof.
  intros now later client_v2 fs.
  assert (Hage : later - now < hours 24) by (vm_compute; reflexivity).
  split; [exact Hage|]. split; [by eexists|].
  exact (count_then_check_raises UTC now later client_v2 None fs eq_refl Hage eq_refl eq_refl).
Defined.

(** X30.  A fetch that breaks is counted as no tweet when there is no v1.1
    API to fall back on: for an exception other than 429 and
    [api_v1 = None], [count_tweets_last_24h] returns count 0 and
    remaining 17 without an [error], and caches that count of 0, which
    later calls refused with 429 then serve. *)
Theorem broken_fetch_counts_zero (now later : Z) (client_v2 : client)
    (fs : TwitterRateLimits.files) (user_id : Z) (message : string) :
  TwitterRateLimits.disk_writable fs = true ->
  later - now < hours 24 ->
  authenticated_user now client_v2 fs = inl user_id ->
  get_users_tweets client_v2 user_id = Raises (OtherError message) ->
  let result := count_tweets_last_24h now client_v2 None fs in
  Counted.count result.1 = 0
  /\ Counted.remaining result.1 = 17
  /\ Counted.error result.1 = None
  /\ Counted.cached result.1 = false
  /\ get_cached_rate_limits later result.2 = Some (tweet_count_cache now 0 user_id).
Proof.
  intros Hw Hage Huser Hfetch. cbn zeta.
  unfold count_tweets_last_24h. rewrite Huser, Hfetch.
  repeat split. by apply (cache_after_count now later user_id [] fs).
Qed.

Lemma broken_fetch_counts_zero_witness :
  let now := seconds Scenario.T0 in
  let later := now + hours 2 in
  let result := count_tweets_last_24h now (Clients.broken Clients.nba) None
                  Scenario.no_cache in
  later - now < hours 24
  /\ Counted.count result.1 = 0
  /\ Counted.remaining result.1 = 17
  /\ Counted.error result.1 = None
  /\ Counted.cached result.1 = false
  /\ get_cached_rate_limits later result.2 = Some (tweet_count_cache now 0 42).
Proof.
  intros now later.
  assert (Hage : later - now < hours 24) by (vm_compute; reflexivity).
  split; [exact Hage|].
  exact (broken_fetch_counts_zero now later (Clients.broken Clients.nba)
           Scenario.no_cache 42 "Connection reset by peer" eq_refl Hage eq_refl eq_refl).
Defined.

End api_count.

